(** * Azure Cosmos DB MCP server: a shallow embedding of [dist/index.js]

    The server is a tool dispatcher in front of six handlers; each handler
    talks to the Cosmos DB client and shapes the answer into a result object.
    The development models

    - JavaScript values as the handlers see them (JSON data plus [undefined]),
      with objects as association lists in own-property order;
    - the Cosmos client as an external collaborator: a handler is a finite
      tree of store calls ([Prog]), run against any store ([run]);
    - the six handlers and the call-tool dispatcher, line by line.  *)

From Stdlib Require Import String Ascii List Bool Arith NArith Lia.
From Stdlib Require Import PrimFloat DecimalString.
Import ListNotations.
Local Open Scope string_scope.
Local Open Scope list_scope.
Set Warnings "-register-all".

(* ================================================================== *)
(** ** JavaScript strings *)
(* ================================================================== *)

Module JsString.

(** [s.length]; a character of the model stands for one code unit. *)
Definition length (s : string) : nat := String.length s.

(** [s.split(sep)] for a one-character separator: never empty, the pieces
    between consecutive separators, empty pieces included. *)
Fixpoint split (sep : ascii) (s : string) : list string :=
  match s with
  | EmptyString => [EmptyString]
  | String c rest =>
      if Ascii.eqb c sep then EmptyString :: split sep rest
      else match split sep rest with
           | w :: ws => String c w :: ws
           | [] => [String c EmptyString]
           end
  end.

(** [a.slice(0, n)] on an array. *)
Definition slice0 {A} (n : nat) (l : list A) : list A := firstn n l.

(** [a.join(sep)] on an array of strings. *)
Definition join (sep : string) (l : list string) : string := String.concat sep l.

(** [String(n)] for an array length or index. *)
Definition of_nat (n : nat) : string := NilZero.string_of_uint (Nat.to_uint n).

(** The characters of a string as one-character strings ([s[i]]). *)
Fixpoint chars (s : string) : list string :=
  match s with
  | EmptyString => []
  | String c rest => String c EmptyString :: chars rest
  end.

Definition space : ascii := " "%char.

Fixpoint has_space (s : string) : bool :=
  match s with
  | EmptyString => false
  | String c rest => Ascii.eqb c space || has_space rest
  end.

End JsString.

(* ================================================================== *)
(** ** JavaScript values and objects *)
(* ================================================================== *)

(** The values that cross the server: what [JSON.parse] produces, plus
    [undefined]. Numbers are IEEE doubles. An object lists its own enumerable
    properties in the order [Object.keys] reports them. *)
Inductive JsValue : Type :=
| JUndefined
| JNull
| JBool (b : bool)
| JNum (n : float)
| JStr (s : string)
| JArr (elems : list JsValue)
| JObj (props : list (string * JsValue)).

Definition JsObject : Type := list (string * JsValue).

(** A thrown [Error]: its [name] and [message]. *)
Record JsError : Type := mkError { err_name : string; err_message : string }.

Definition Error (msg : string) : JsError := mkError "Error" msg.
Definition TypeError (msg : string) : JsError := mkError "TypeError" msg.

(** [Error.prototype.toString], which [`${error}`] calls. *)
Definition error_toString (e : JsError) : string :=
  if String.eqb (err_name e) "" then err_message e
  else if String.eqb (err_message e) "" then err_name e
  else err_name e ++ ": " ++ err_message e.

Module Obj.

Fixpoint lookup (k : string) (o : JsObject) : option JsValue :=
  match o with
  | [] => None
  | (k', v) :: rest => if String.eqb k k' then Some v else lookup k rest
  end.

Definition keys (o : JsObject) : list string := map fst o.

Definition has (k : string) (o : JsObject) : bool :=
  match lookup k o with Some _ => true | None => false end.

Definition digit (c : ascii) : option N :=
  let n := N_of_ascii c in
  if ((48 <=? n) && (n <=? 57))%N then Some (n - 48)%N else None.

Fixpoint digits (acc : N) (s : string) : option N :=
  match s with
  | EmptyString => Some acc
  | String c rest =>
      match digit c with
      | Some d => digits (10 * acc + d)%N rest
      | None => None
      end
  end.

(** An array index: the canonical decimal form of an integer below 2^32 - 1.
    Such keys come first among an object's own keys, in numeric order. *)
Definition array_index (k : string) : option N :=
  match k with
  | EmptyString => None
  | String "0"%char EmptyString => Some 0%N
  | String "0"%char _ => None
  | _ => match digits 0 k with
         | Some n => if (n <? 4294967295)%N then Some n else None
         | None => None
         end
  end.

Fixpoint replace (k : string) (v : JsValue) (o : JsObject) : JsObject :=
  match o with
  | [] => []
  | (k', v') :: rest =>
      if String.eqb k k' then (k', v) :: rest else (k', v') :: replace k v rest
  end.

(** Where a new array-index key goes: before the first key that is no array
    index or a larger one. *)
Fixpoint insert_index (n : N) (k : string) (v : JsValue) (o : JsObject) : JsObject :=
  match o with
  | [] => [(k, v)]
  | (k', v') :: rest =>
      match array_index k' with
      | Some m => if (m <? n)%N then (k', v') :: insert_index n k v rest
                  else (k, v) :: o
      | None => (k, v) :: o
      end
  end.

(** CreateDataProperty: overwrite in place, or add a new own property. *)
Definition define (k : string) (v : JsValue) (o : JsObject) : JsObject :=
  if has k o then replace k v o
  else match array_index k with
       | Some n => insert_index n k v o
       | None => o ++ [(k, v)]
       end.

(** [o[k] = v] on an object created by [{}]: an ordinary assignment. The key
    ["__proto__"] resolves to the accessor inherited from [Object.prototype],
    whose setter changes the prototype (or does nothing) and creates no own
    property; every other key of JSON data becomes an own data property. *)
Definition assign (k : string) (v : JsValue) (o : JsObject) : JsObject :=
  if String.eqb k "__proto__" then o else define k v o.

End Obj.

Module Js.

Fixpoint indexed_from {A} (i : nat) (l : list A) : list (string * A) :=
  match l with
  | [] => []
  | x :: rest => (JsString.of_nat i, x) :: indexed_from (S i) rest
  end.

(** The own enumerable string-keyed properties of a value, as [for ... in],
    [Object.keys] and object spread enumerate them. *)
Definition own_props (v : JsValue) : JsObject :=
  match v with
  | JObj o => o
  | JArr l => indexed_from 0 l
  | JStr s => indexed_from 0 (map JStr (JsString.chars s))
  | _ => []
  end.

Definition is_nullish (v : JsValue) : bool :=
  match v with JUndefined | JNull => true | _ => false end.

(** [v[k]] where [k] is an own key or a name no built-in prototype defines:
    the own property, else [undefined]. *)
Definition get (v : JsValue) (k : string) : JsValue :=
  match Obj.lookup k (own_props v) with
  | Some x => x
  | None => JUndefined
  end.

(** [typeof v]. *)
Definition typeof (v : JsValue) : string :=
  match v with
  | JUndefined => "undefined"
  | JNull => "object"
  | JBool _ => "boolean"
  | JNum _ => "number"
  | JStr _ => "string"
  | JArr _ => "object"
  | JObj _ => "object"
  end.

(** ToBoolean. *)
Definition truthy (v : JsValue) : bool :=
  match v with
  | JUndefined | JNull => false
  | JBool b => b
  | JNum n => negb (PrimFloat.eqb n 0 || PrimFloat.is_nan n)
  | JStr s => negb (String.eqb s "")
  | JArr _ | JObj _ => true
  end.

(** Object spread [{ ...a, ...b }] copies own properties with
    CreateDataProperty, in order. *)
Definition spread_into (target : JsObject) (source : JsValue) : JsObject :=
  fold_left (fun acc kv => Obj.define (fst kv) (snd kv) acc) (own_props source) target.

End Js.

(* ================================================================== *)
(** ** The program text: [truncateLongValues] *)
(* ================================================================== *)

(** [function truncateLongValues(value)], lines 88-93. *)
Definition truncateLongValues (value : JsValue) : JsValue :=
  match value with
  | JStr s =>
      if Nat.ltb 100 (JsString.length s)
      then JStr (JsString.join " " (JsString.slice0 10 (JsString.split JsString.space s)) ++ "...")
      else value
  | _ => value
  end.


(* ================================================================== *)
(** ** Handlers as programs over the store client *)
(* ================================================================== *)

(** The calls the handlers make on the Cosmos client, with the arguments the
    code passes: database name, container name, and what the call takes.
    Nothing is validated before the call, so the arguments are any value. *)
Inductive StoreCall : Type :=
| ItemRead (db : string) (container id : JsValue)
| ItemReplace (db : string) (container id body : JsValue)
| ItemsCreate (db : string) (container body : JsValue)
| ItemsQuery (db : string) (container querySpec : JsValue)
| ContainersReadAll (db : string).

(** How the promise of a store call settles: with the response object
    ([{ resource }] or [{ resources }]) or with a rejection. *)
Inductive Settled : Type :=
| Fulfilled (response : JsValue)
| Rejected (e : JsError).

(** An async function body: it returns, throws, awaits a store call, or
    writes a diagnostic with [console.error]. *)
Inductive Prog (A : Type) : Type :=
| Ret (a : A)
| Throw (e : JsError)
| Call (c : StoreCall) (k : Settled -> Prog A)
| ConsoleError (label : string) (e : JsError) (k : Prog A).

Arguments Ret {A} a.
Arguments Throw {A} e.
Arguments Call {A} c k.
Arguments ConsoleError {A} label e k.

Fixpoint bind {A B} (p : Prog A) (f : A -> Prog B) : Prog B :=
  match p with
  | Ret a => f a
  | Throw e => Throw e
  | Call c k => Call c (fun r => bind (k r) f)
  | ConsoleError l e k => ConsoleError l e (bind k f)
  end.

(** [try { p } catch (error) { h error }]. *)
Fixpoint try_catch {A} (p : Prog A) (h : JsError -> Prog A) : Prog A :=
  match p with
  | Ret a => Ret a
  | Throw e => h e
  | Call c k => Call c (fun r => try_catch (k r) h)
  | ConsoleError l e k => ConsoleError l e (try_catch k h)
  end.

Declare Scope prog_scope.
Delimit Scope prog_scope with prog.
Notation "x <- p ;; q" := (bind p (fun x => q))
  (at level 61, p at next level, right associativity) : prog_scope.
Notation "p ;; q" := (bind p (fun _ => q))
  (at level 61, right associativity) : prog_scope.
Local Open Scope prog_scope.

(** [await call]: the response, or the rejection thrown. *)
Definition await (c : StoreCall) : Prog JsValue :=
  Call c (fun r => match r with Fulfilled v => Ret v | Rejected e => Throw e end).

(** [const { p } = source], where [v] is the value of [source]: a
    [TypeError] when [v] is [undefined] or [null], worded as Node words it
    (an awaited call reads as ['(intermediate value)']). *)
Definition destructure (v : JsValue) (p source : string) : Prog JsValue :=
  match v with
  | JUndefined =>
      Throw (TypeError ("Cannot destructure property '" ++ p ++ "' of '" ++ source
                          ++ "' as it is undefined."))
  | JNull =>
      Throw (TypeError ("Cannot destructure property '" ++ p ++ "' of '" ++ source
                          ++ "' as it is null."))
  | _ => Ret (Js.get v p)
  end.

Arguments destructure : simpl never.

(** [Object.keys(v)]. *)
Definition Object_keys (v : JsValue) : Prog (list string) :=
  if Js.is_nullish v
  then Throw (TypeError "Cannot convert undefined or null to object")
  else Ret (Obj.keys (Js.own_props v)).

(** [v.p] for a property no built-in prototype defines. *)
Definition member (v : JsValue) (p : string) : Prog JsValue :=
  match v with
  | JUndefined =>
      Throw (TypeError ("Cannot read properties of undefined (reading '" ++ p ++ "')"))
  | JNull =>
      Throw (TypeError ("Cannot read properties of null (reading '" ++ p ++ "')"))
  | _ => Ret (Js.get v p)
  end.

(** What the host supplies: the database name from the process environment
    and Number::toString, the decimal form of a double. *)
Class Host : Type := {
  COSMOSDB_DATABASE : option string;
  Number_toString : float -> string
}.

(** ** Running a program against a store *)

Inductive Outcome (A : Type) : Type :=
| Returned (a : A)
| Threw (e : JsError).

Arguments Returned {A} a.
Arguments Threw {A} e.

(** A store client: a state and how each call settles and changes it. *)
Record Store : Type := {
  state : Type;
  handle : StoreCall -> state -> Settled * state
}.

Record Run (S A : Type) : Type := mkRun {
  outcome : Outcome A;
  final : S;
  calls : list StoreCall;
  stderr : list (string * JsError)
}.

Arguments mkRun {S A}.
Arguments outcome {S A}.
Arguments final {S A}.
Arguments calls {S A}.
Arguments stderr {S A}.

Fixpoint run (st : Store) {A} (p : Prog A) (s : state st) : Run (state st) A :=
  match p with
  | Ret a => mkRun (Returned a) s [] []
  | Throw e => mkRun (Threw e) s [] []
  | Call c k =>
      let (r, s') := handle st c s in
      let t := run st (k r) s' in
      mkRun (outcome t) (final t) (c :: calls t) (stderr t)
  | ConsoleError l e k =>
      let t := run st k s in
      mkRun (outcome t) (final t) (calls t) ((l, e) :: stderr t)
  end.

(* ================================================================== *)
(** ** The server *)
(* ================================================================== *)

Section Server.

Context {host : Host}.

(** [const dbName = process.env.COSMOSDB_DATABASE || "todos"], line 13. *)
Definition dbName : string :=
  match COSMOSDB_DATABASE with
  | Some s => if String.eqb s "" then "todos" else s
  | None => "todos"
  end.

Fixpoint map_prog {A B} (f : A -> Prog B) (l : list A) : Prog (list B) :=
  match l with
  | [] => Ret []
  | x :: rest => y <- f x ;; ys <- map_prog f rest ;; Ret (y :: ys)
  end.

(** ToString, as a template literal applies it to an interpolated value. An
    object of JSON data prints as [[object Object]] unless an own [toString]
    property (never callable here) hides the inherited method, in which case
    the conversion throws; an array joins its elements with commas. *)
Fixpoint ToString (v : JsValue) : Prog string :=
  match v with
  | JUndefined => Ret "undefined"
  | JNull => Ret "null"
  | JBool true => Ret "true"
  | JBool false => Ret "false"
  | JNum n => Ret (Number_toString n)
  | JStr s => Ret s
  | JArr l =>
      parts <- (fix elems (l : list JsValue) : Prog (list string) :=
                  match l with
                  | [] => Ret []
                  | x :: rest =>
                      s <- (if Js.is_nullish x then Ret "" else ToString x) ;;
                      ss <- elems rest ;;
                      Ret (s :: ss)
                  end) l ;;
      Ret (JsString.join "," parts)
  | JObj o =>
      if Obj.has "toString" o
      then Throw (TypeError "Cannot convert object to primitive value")
      else Ret "[object Object]"
  end.

(** ** [JSON.stringify(value, null, 2)] *)

Definition hex_digit (n : N) : ascii :=
  ascii_of_N (if (n <? 10)%N then 48 + n else 87 + n)%N.

Definition dquote : string := String (ascii_of_N 34) "".
Definition backslash : string := String (ascii_of_N 92) "".

(** QuoteJSONString, one code unit at a time. *)
Definition quote_char (c : ascii) : string :=
  let n := N_of_ascii c in
  if (n =? 34)%N then backslash ++ dquote
  else if (n =? 92)%N then backslash ++ backslash
  else if (n =? 8)%N then backslash ++ "b"
  else if (n =? 12)%N then backslash ++ "f"
  else if (n =? 10)%N then backslash ++ "n"
  else if (n =? 13)%N then backslash ++ "r"
  else if (n =? 9)%N then backslash ++ "t"
  else if (n <? 32)%N
       then backslash ++ "u00"
              ++ String (hex_digit (n / 16)) (String (hex_digit (n mod 16)) "")
  else String c "".

Fixpoint quote_body (s : string) : string :=
  match s with
  | EmptyString => ""
  | String c rest => quote_char c ++ quote_body rest
  end.

Definition quote (s : string) : string := dquote ++ quote_body s ++ dquote.

Definition newline : string := String (ascii_of_N 10) "".

Definition is_finite (n : float) : bool :=
  negb (PrimFloat.is_nan n || PrimFloat.is_infinity n).

(** SerializeJSONProperty at a given indentation; [None] is [undefined]: such
    a property is left out of an object, and such an element of an array is
    written [null]. *)
Fixpoint serialize (indent : string) (v : JsValue) : option string :=
  let stepback : string := indent in
  let inner : string := (indent ++ "  ")%string in
  let wrap (opening closing : string) (parts : list string) : string :=
    match parts with
    | [] => (opening ++ closing)%string
    | _ => (opening ++ newline ++ inner
              ++ JsString.join ("," ++ newline ++ inner) parts
              ++ newline ++ stepback ++ closing)%string
    end in
  match v with
  | JUndefined => None
  | JNull => Some "null"
  | JBool true => Some "true"
  | JBool false => Some "false"
  | JNum n => Some (if is_finite n then Number_toString n else "null")
  | JStr s => Some (quote s)
  | JArr l =>
      Some (wrap "[" "]"
              ((fix elems (l : list JsValue) : list string :=
                  match l with
                  | [] => []
                  | x :: rest =>
                      match serialize inner x with
                      | Some s => s
                      | None => "null"
                      end :: elems rest
                  end) l))
  | JObj o =>
      Some (wrap "{" "}"
              ((fix props (o : list (string * JsValue)) : list string :=
                  match o with
                  | [] => []
                  | (k, x) :: rest =>
                      match serialize inner x with
                      | Some s => (quote k ++ ": " ++ s)%string :: props rest
                      | None => props rest
                      end
                  end) o))
  end.

(** [JSON.stringify(value, null, 2)]: a string, or [undefined]. *)
Definition JSON_stringify (value : JsValue) : JsValue :=
  match serialize "" value with
  | Some s => JStr s
  | None => JUndefined
  end.

(** The result objects, in the key order of the object literals. *)
Definition success_result (message : string) (payload : list (string * JsValue)) : JsValue :=
  JObj (("success", JBool true) :: ("message", JStr message) :: payload).

Definition failure_result (message : string) : JsValue :=
  JObj [("success", JBool false); ("message", JStr message)].

(** [async function updateItem(params)], lines 94-117. *)
Definition updateItem (params : JsValue) : Prog JsValue :=
  try_catch
    (containerName <- destructure params "containerName" "params" ;;
     id <- destructure params "id" "params" ;;
     updates <- destructure params "updates" "params" ;;
     response <- await (ItemRead dbName containerName id) ;;
     resource <- destructure response "resource" "(intermediate value)" ;;
     (if negb (Js.truthy resource) then Throw (Error "Item not found") else Ret tt) ;;
     let updatedItem := JObj (Js.spread_into (Js.spread_into [] resource) updates) in
     replaced <- await (ItemReplace dbName containerName id updatedItem) ;;
     updatedResource <- destructure replaced "resource" "(intermediate value)" ;;
     name <- ToString containerName ;;
     Ret (success_result ("Item updated successfully in container " ++ name)
            [("item", updatedResource)]))
    (fun error =>
       ConsoleError "Error updating item:" error
         (Ret (failure_result ("Failed to update item: " ++ error_toString error)))).

(** [async function putItem(params)], lines 118-136. *)
Definition putItem (params : JsValue) : Prog JsValue :=
  try_catch
    (containerName <- destructure params "containerName" "params" ;;
     item <- destructure params "item" "params" ;;
     response <- await (ItemsCreate dbName containerName item) ;;
     resource <- destructure response "resource" "(intermediate value)" ;;
     name <- ToString containerName ;;
     Ret (success_result ("Item added successfully to container " ++ name)
            [("item", resource)]))
    (fun error =>
       ConsoleError "Error putting item:" error
         (Ret (failure_result ("Failed to put item: " ++ error_toString error)))).

(** [async function getItem(params)], lines 137-155. *)
Definition getItem (params : JsValue) : Prog JsValue :=
  try_catch
    (containerName <- destructure params "containerName" "params" ;;
     id <- destructure params "id" "params" ;;
     response <- await (ItemRead dbName containerName id) ;;
     resource <- destructure response "resource" "(intermediate value)" ;;
     name <- ToString containerName ;;
     Ret (success_result ("Item retrieved successfully from container " ++ name)
            [("item", resource)]))
    (fun error =>
       ConsoleError "Error getting item:" error
         (Ret (failure_result ("Failed to get item: " ++ error_toString error)))).

(** [async function queryContainer(params)], lines 156-174. *)
Definition queryContainer (params : JsValue) : Prog JsValue :=
  try_catch
    (containerName <- destructure params "containerName" "params" ;;
     query <- destructure params "query" "params" ;;
     parameters <- destructure params "parameters" "params" ;;
     let querySpec := JObj [("query", query); ("parameters", parameters)] in
     response <- await (ItemsQuery dbName containerName querySpec) ;;
     resources <- destructure response "resources" "(intermediate value)" ;;
     name <- ToString containerName ;;
     Ret (success_result ("Query executed successfully on container " ++ name)
            [("items", resources)]))
    (fun error =>
       ConsoleError "Error querying container:" error
         (Ret (failure_result ("Failed to query container: " ++ error_toString error)))).

(** [resources.map(f)]: only an array has [map]. *)
Definition array_map {B} (resources : JsValue) (f : JsValue -> Prog B) : Prog (list B) :=
  match resources with
  | JArr l => map_prog f l
  | JUndefined =>
      Throw (TypeError "Cannot read properties of undefined (reading 'map')")
  | JNull =>
      Throw (TypeError "Cannot read properties of null (reading 'map')")
  | _ => Throw (TypeError "resources.map is not a function")
  end.

(** [async function listContainers()], lines 175-191; its [catch] does not
    log. *)
Definition listContainers : Prog JsValue :=
  try_catch
    (response <- await (ContainersReadAll dbName) ;;
     resources <- destructure response "resources" "(intermediate value)" ;;
     ids <- array_map resources (fun c => member c "id") ;;
     Ret (success_result "Containers retrieved successfully"
            [("containers", JArr ids)]))
    (fun error =>
       Ret (failure_result ("Failed to list containers: " ++ error_toString error))).

(** The callback of [resources.map] at lines 202-208: a fresh object, one
    assignment per key that [for ... in] visits. *)
Definition truncateItem (item : JsValue) : JsObject :=
  fold_left
    (fun truncatedItem key =>
       Obj.assign key (truncateLongValues (Js.get item key)) truncatedItem)
    (Obj.keys (Js.own_props item)) [].

(** One element of the [schema] array, lines 214-218. *)
Definition schemaEntry (first : JsValue) (key : string) : JsValue :=
  JObj [("field", JStr key);
        ("type", JStr (Js.typeof (Js.get first key)));
        ("sample", truncateLongValues (Js.get first key))].

Definition sampleQuery : string :=
  "SELECT * FROM c ORDER BY c._ts DESC OFFSET 0 LIMIT @limit".

(** [limit = 1] in the parameter pattern: the default replaces [undefined]
    only. *)
Definition limitOrDefault (limit : JsValue) : JsValue :=
  match limit with
  | JUndefined => JNum 1
  | _ => limit
  end.

(** The argument of [items.query], lines 196-200. *)
Definition sampleQuerySpec (limit : JsValue) : JsValue :=
  let queryParams := JArr [JObj [("name", JStr "@limit"); ("value", limit)]] in
  JObj [("query", JStr sampleQuery); ("parameters", queryParams)].

(** The [schema] field, lines 213-219. *)
Definition sampleSchema (resources : list JsValue) : Prog (list JsValue) :=
  match resources with
  | [] => Ret []
  | first :: _ =>
      keys <- Object_keys first ;;
      Ret (map (schemaEntry first) keys)
  end.

(** [async function sampleItem(params)], lines 192-229. From line 202 on
    [resources] is used as an array: [map] throws on anything else. *)
Definition sampleItem (params : JsValue) : Prog JsValue :=
  try_catch
    (containerName <- destructure params "containerName" "params" ;;
     limit0 <- destructure params "limit" "params" ;;
     let limit := limitOrDefault limit0 in
     response <- await (ItemsQuery dbName containerName (sampleQuerySpec limit)) ;;
     resources <- destructure response "resources" "(intermediate value)" ;;
     truncatedResources <- array_map resources (fun item => Ret (JObj (truncateItem item))) ;;
     let items := match resources with JArr l => l | _ => [] end in
     name <- ToString containerName ;;
     schema <- sampleSchema items ;;
     Ret (success_result
            ("Retrieved " ++ JsString.of_nat (List.length items)
               ++ " sample item(s) from container " ++ name)
            [("items", JArr truncatedResources); ("schema", JArr schema)]))
    (fun error =>
       ConsoleError "Error sampling container:" error
         (Ret (failure_result ("Failed to sample container: " ++ error_toString error)))).

(** The one store call of [sampleItem], for a container named by a string. *)
Definition sampleQueryCall (params : JsValue) (c : string) : StoreCall :=
  ItemsQuery dbName (JStr c) (sampleQuerySpec (limitOrDefault (Js.get params "limit"))).

(** The object literal of lines 209-220 when [resources] is an array of
    documents. *)
Definition sampleResult (c : string) (resources : list JsValue) : JsValue :=
  success_result
    ("Retrieved " ++ JsString.of_nat (List.length resources)
       ++ " sample item(s) from container " ++ c)
    [("items", JArr (map (fun item => JObj (truncateItem item)) resources));
     ("schema",
      JArr match resources with
           | [] => []
           | first :: _ => map (schemaEntry first) (Obj.keys (Js.own_props first))
           end)].

(** The items of a feed are documents, never [null]. *)
Definition documents (resources : list JsValue) : Prop :=
  Forall (fun item => Js.is_nullish item = false) resources.

(** A call-tool request: [request.params.name] and
    [request.params.arguments]. *)
Record Request : Type := { name : string; arguments : JsValue }.

Definition text_content (text : JsValue) : JsValue :=
  JArr [JObj [("type", JStr "text"); ("text", text)]].

(** The [switch] of lines 246-273: [inl] is the early [return] of the
    [default] branch, [inr] the handler's result. *)
Definition route (request : Request) : Prog (JsValue + JsValue) :=
  let args := arguments request in
  let n := name request in
  if String.eqb n "put_item" then r <- putItem args ;; Ret (inr r)
  else if String.eqb n "get_item" then r <- getItem args ;; Ret (inr r)
  else if String.eqb n "query_container" then r <- queryContainer args ;; Ret (inr r)
  else if String.eqb n "update_item" then r <- updateItem args ;; Ret (inr r)
  else if String.eqb n "list_containers" then r <- listContainers ;; Ret (inr r)
  else if String.eqb n "sample_item" then r <- sampleItem args ;; Ret (inr r)
  else Ret (inl (JObj [("content", text_content (JStr ("Unknown tool: " ++ n)));
                       ("isError", JBool true)])).

(** The body of the [try] block, lines 245-273. *)
Definition callTool_body (request : Request) : Prog JsValue :=
  routed <- route request ;;
  match routed with
  | inl response => Ret response
  | inr result => Ret (JObj [("content", text_content (JSON_stringify result))])
  end.

(** The [CallToolRequestSchema] handler, lines 242-281. *)
Definition callTool (request : Request) : Prog JsValue :=
  try_catch (callTool_body request)
    (fun error =>
       Ret (JObj [("content", text_content (JStr ("Error occurred: " ++ error_toString error)));
                  ("isError", JBool true)])).

(** The names of the catalogue, line 240. *)
Definition toolNames : list string :=
  ["put_item"; "get_item"; "query_container"; "update_item"; "list_containers"; "sample_item"].

End Server.

(* ================================================================== *)
(** ** The tool catalogue *)
(* ================================================================== *)

(** One entry of a schema's [properties]. *)
Definition schemaProperty (type description : string) : JsValue :=
  JObj [("type", JStr type); ("description", JStr description)].

Definition toolDescriptor (name description : string)
  (properties : list (string * JsValue)) (required : list string) : JsValue :=
  JObj [("name", JStr name);
        ("description", JStr description);
        ("inputSchema",
         JObj [("type", JStr "object");
               ("properties", JObj properties);
               ("required", JArr (map JStr required))])].

(** Lines 16-28. *)
Definition UPDATE_ITEM_TOOL : JsValue :=
  toolDescriptor "update_item"
    "Updates specific attributes of an item in a Azure Cosmos DB container"
    [("containerName", schemaProperty "string" "Name of the container");
     ("id", schemaProperty "string" "ID of the item to update");
     ("updates", schemaProperty "object" "The updated attributes of the item")]
    ["containerName"; "id"; "updates"].

(** Lines 29-40. *)
Definition PUT_ITEM_TOOL : JsValue :=
  toolDescriptor "put_item"
    "Inserts or replaces an item in a Azure Cosmos DB container"
    [("containerName", schemaProperty "string" "Name of the  container");
     ("item", schemaProperty "object" "Item to insert into the container")]
    ["containerName"; "item"].

(** Lines 41-52. *)
Definition GET_ITEM_TOOL : JsValue :=
  toolDescriptor "get_item"
    "Retrieves an item from a Azure Cosmos DB container by its ID"
    [("containerName", schemaProperty "string" "Name of the container");
     ("id", schemaProperty "string" "ID of the item to retrieve")]
    ["containerName"; "id"].

(** Lines 53-65. *)
Definition QUERY_CONTAINER_TOOL : JsValue :=
  toolDescriptor "query_container"
    "Queries a Azure Cosmos DB container using SQL-like syntax"
    [("containerName", schemaProperty "string" "Name of the container");
     ("query", schemaProperty "string" "SQL query string");
     ("parameters", schemaProperty "array" "Query parameters")]
    ["containerName"; "query"].

(** Lines 66-74. *)
Definition LIST_CONTAINERS_TOOL : JsValue :=
  toolDescriptor "list_containers"
    "Lists all available containers in the database"
    [] [].

(** Lines 75-86. *)
Definition SAMPLE_ITEM_TOOL : JsValue :=
  toolDescriptor "sample_item"
    "Returns the most recent item from a specified container to understand its schema"
    [("containerName", schemaProperty "string" "Name of the container to sample");
     ("limit", schemaProperty "number" "Maximum number of items to return (default: 1)")]
    ["containerName"].

(** The array of line 240. *)
Definition toolCatalogue : list JsValue :=
  [PUT_ITEM_TOOL; GET_ITEM_TOOL; QUERY_CONTAINER_TOOL; UPDATE_ITEM_TOOL;
   LIST_CONTAINERS_TOOL; SAMPLE_ITEM_TOOL].

(** The [ListToolsRequestSchema] handler, lines 239-241. *)
Definition listTools : Prog JsValue :=
  Ret (JObj [("tools", JArr toolCatalogue)]).

(** Whether the catalogue lists a tool of that name. *)
Definition listed (n : string) : bool :=
  existsb (fun tool => match Js.get tool "name" with
                       | JStr m => String.eqb m n
                       | _ => false
                       end) toolCatalogue.

(* ================================================================== *)
(** ** A reference store *)
(* ================================================================== *)

(** A model of the Cosmos client for one database. The handlers pass no
    partition key, so the client addresses the documents that carry no
    partition key value; the model holds those: a container is the list of
    such documents, newest write first, with pairwise distinct string ids.
    It fixes the point operations the handlers rely on: [create] rejects an
    id that is taken (409), [read] of a missing id fulfils with no resource,
    [replace] rejects a missing id (404). System properties ([_ts], [_etag],
    ...) are left out. Of the query language it answers the sampling query
    only. *)
Module Cosmos.

Record Database : Type := {
  db_id : string;
  containers : list (string * list JsObject);
  generated : nat
}.

Definition NotFound : JsError := Error "Entity with the specified id does not exist in the system.".
Definition Conflict : JsError := Error "Entity with the specified id already exists in the system.".
Definition BadRequest (msg : string) : JsError := Error msg.

Fixpoint find_container (c : string) (cs : list (string * list JsObject)) : option (list JsObject) :=
  match cs with
  | [] => None
  | (c', docs) :: rest => if String.eqb c c' then Some docs else find_container c rest
  end.

Fixpoint set_container (c : string) (docs : list JsObject)
  (cs : list (string * list JsObject)) : list (string * list JsObject) :=
  match cs with
  | [] => []
  | (c', docs') :: rest =>
      if String.eqb c c' then (c', docs) :: rest else (c', docs') :: set_container c docs rest
  end.

Definition has_id (id : string) (doc : JsObject) : bool :=
  match Obj.lookup "id" doc with
  | Some (JStr i) => String.eqb i id
  | _ => false
  end.

Definition find_doc (id : string) (docs : list JsObject) : option JsObject :=
  find (has_id id) docs.

Definition remove_doc (id : string) (docs : list JsObject) : list JsObject :=
  filter (fun d => negb (has_id id d)) docs.

Definition response (resource : JsValue) : Settled :=
  Fulfilled (JObj [("resource", resource)]).

Definition feed (resources : list JsValue) : Settled :=
  Fulfilled (JObj [("resources", JArr resources)]).

Definition with_docs (db : Database) (c : string) (docs : list JsObject) : Database :=
  {| db_id := db_id db; containers := set_container c docs (containers db);
     generated := generated db |}.

(** [LIMIT n]: documents while the count stays below [n]. *)
Fixpoint take_limit {A} (limit count : float) (l : list A) : list A :=
  match l with
  | [] => []
  | x :: rest =>
      if PrimFloat.ltb count limit then x :: take_limit limit (count + 1)%float rest
      else []
  end.

Definition read (db : Database) (c id : string) : Settled :=
  match find_container c (containers db) with
  | None => Rejected NotFound
  | Some docs =>
      match find_doc id docs with
      | Some doc => response (JObj doc)
      | None => response JUndefined
      end
  end.

Definition create (db : Database) (c : string) (body : JsObject) : Settled * Database :=
  match find_container c (containers db) with
  | None => (Rejected NotFound, db)
  | Some docs =>
      let insert id doc db' :=
        match find_doc id docs with
        | Some _ => (Rejected Conflict, db)
        | None => (response (JObj doc), with_docs db' c (doc :: docs))
        end in
      match Js.get (JObj body) "id" with
      | JStr "" | JUndefined =>
          let id := ("generated-" ++ JsString.of_nat (generated db))%string in
          insert id (Obj.define "id" (JStr id) body)
            {| db_id := db_id db; containers := containers db;
               generated := S (generated db) |}
      | JStr id => insert id body db
      | _ => (Rejected (BadRequest "Id must be a string."), db)
      end
  end.

Definition replace (db : Database) (c id : string) (body : JsObject) : Settled * Database :=
  match find_container c (containers db) with
  | None => (Rejected NotFound, db)
  | Some docs =>
      match find_doc id docs, Js.get (JObj body) "id" with
      | None, _ => (Rejected NotFound, db)
      | Some _, JStr id' =>
          match find_doc id' (remove_doc id docs) with
          | Some _ => (Rejected Conflict, db)
          | None => (response (JObj body), with_docs db c (body :: remove_doc id docs))
          end
      | Some _, _ => (Rejected (BadRequest "Id must be a string."), db)
      end
  end.

Definition query (db : Database) (c : string) (querySpec : JsValue) : Settled :=
  match find_container c (containers db) with
  | None => Rejected NotFound
  | Some docs =>
      match Js.get querySpec "query", Js.get querySpec "parameters" with
      | JStr q, JArr [JObj [("name", JStr "@limit"); ("value", JNum n)]] =>
          if String.eqb q sampleQuery
          then feed (map JObj (take_limit n 0%float docs))
          else Rejected (BadRequest "query outside the model")
      | _, _ => Rejected (BadRequest "query outside the model")
      end
  end.

Definition answer (call : StoreCall) (db : Database) : Settled * Database :=
  match call with
  | ItemRead d (JStr c) (JStr id) =>
      if String.eqb d (db_id db) then (read db c id, db) else (Rejected NotFound, db)
  | ItemsCreate d (JStr c) (JObj body) =>
      if String.eqb d (db_id db) then create db c body else (Rejected NotFound, db)
  | ItemReplace d (JStr c) (JStr id) (JObj body) =>
      if String.eqb d (db_id db) then replace db c id body else (Rejected NotFound, db)
  | ItemsQuery d (JStr c) querySpec =>
      if String.eqb d (db_id db) then (query db c querySpec, db) else (Rejected NotFound, db)
  | ContainersReadAll d =>
      if String.eqb d (db_id db)
      then (feed (map (fun c => JObj [("id", JStr (fst c))]) (containers db)), db)
      else (Rejected NotFound, db)
  | _ => (Rejected (BadRequest "malformed request"), db)
  end.

Definition store : Store := {| state := Database; handle := answer |}.

End Cosmos.

Fixpoint float_of_nat (n : nat) : float :=
  match n with
  | O => 0%float
  | S m => (float_of_nat m + 1)%float
  end.

(** A host for examples: no database configured; numbers are printed by a
    stand-in for Number::toString that is exact on the integers 0..99, all
    the examples use. *)
Definition example_host : Host := {|
  COSMOSDB_DATABASE := None;
  Number_toString := fun n =>
    match find (fun k => PrimFloat.eqb n (float_of_nat k)) (seq 0 100) with
    | Some k => JsString.of_nat k
    | None => "NaN"
    end
|}.

(** Container ["c"] holds the item [{id: "x", a: 0, b: 2}]; container
    ["empty"] holds nothing. *)
Definition example_db : Cosmos.Database := {|
  Cosmos.db_id := "todos";
  Cosmos.containers :=
    [("c", [[("id", JStr "x"); ("a", JNum 0); ("b", JNum 2)]]); ("empty", [])];
  Cosmos.generated := 0
|}.

(** JSON data has no duplicate keys. *)
Fixpoint distinct (l : list string) : bool :=
  match l with
  | [] => true
  | k :: rest => negb (existsb (String.eqb k) rest) && distinct rest
  end.

Definition well_formed (v : JsValue) : bool := distinct (Obj.keys (Js.own_props v)).

(** The protocol-level error flag of a call-tool response. *)
Definition isError (response : JsValue) : bool :=
  match Js.get response "isError" with
  | JBool true => true
  | _ => false
  end.


(** The arguments object exists and names its container by a string. *)
Definition names_container (params : JsValue) (c : string) : Prop :=
  Js.is_nullish params = false /\ Js.get params "containerName" = JStr c.

(** In state [s] the store fulfils [call] with a response object and moves to
    [s']. *)
Definition fulfils (st : Store) (call : StoreCall) (s : state st)
  (response : JsValue) (s' : state st) : Prop :=
  handle st call s = (Fulfilled response, s') /\ Js.is_nullish response = false.

(** The truncation rule in the spec's words: a string longer than 100
    characters becomes its first ten space-separated words, joined by spaces,
    followed by an ellipsis; any other value stays as it is. *)
Definition spec_truncated (raw shown : JsValue) : Prop :=
  (forall str, raw = JStr str -> 100 < JsString.length str ->
     shown = JStr (JsString.join " " (JsString.slice0 10 (JsString.split JsString.space str))
                     ++ "..."))
  /\ ((forall str, raw = JStr str -> JsString.length str <= 100) -> shown = raw).

(** A string of 101 characters without a space, and one of 12 words. *)
Definition long_word : string :=
  "aaaaaaaaaaaaaaaaaaaaaaaaaaaaaaaaaaaaaaaaaaaaaaaaaaaaaaaaaaaaaaaaaaaaaaaaaaaaaaaaaaaaaaaaaaaaaaaaaaaaa".

Definition long_sentence : string :=
  "lorem ipsum dolor sit amet consectetur adipiscing elit sed do eiusmod tempor incididunt ut labore et dolore magna aliqua".

(** The entry of [schema] for one field of the first document. *)
Definition schema_of_field (field : string * JsValue) : JsValue :=
  JObj [("field", JStr (fst field));
        ("type", JStr (Js.typeof (snd field)));
        ("sample", truncateLongValues (snd field))].

(** Two notes, the newer one first; its [body] is longer than 100
    characters. *)
Definition note2 : JsObject :=
  [("id", JStr "n2"); ("title", JStr "second"); ("body", JStr long_sentence);
   ("stars", JNum 3); ("tags", JArr [JStr "x"])].

Definition note1 : JsObject :=
  [("id", JStr "n1"); ("title", JStr "first"); ("body", JStr long_word)].

Definition notes_db : Cosmos.Database := {|
  Cosmos.db_id := "todos";
  Cosmos.containers := [("notes", [note2; note1])];
  Cosmos.generated := 0
|}.

(** A document with a field named [__proto__], as [JSON.parse] builds it. *)
Definition odd_doc : JsObject := [("id", JStr "1"); ("__proto__", JStr "x")].

(** The same with a long string under [__proto__]. *)
Definition odd_long_doc : JsObject := [("id", JStr "2"); ("__proto__", JStr long_sentence)].

Definition odd_db : Cosmos.Database := {|
  Cosmos.db_id := "todos";
  Cosmos.containers := [("odd", [odd_doc])];
  Cosmos.generated := 0
|}.

Definition sample_args (c : string) (limit : JsValue) : JsValue :=
  JObj [("containerName", JStr c); ("limit", limit)].


Definition put_args : JsValue :=
  JObj [("containerName", JStr "c"); ("item", JObj [("id", JStr "x"); ("a", JNum 9)])].

Definition get_args (id : string) : JsValue :=
  JObj [("containerName", JStr "c"); ("id", JStr id)].


Definition put_fresh_args : JsValue :=
  JObj [("containerName", JStr "c"); ("item", JObj [("id", JStr "y"); ("a", JNum 9)])].


(** A program without a [throw] that escapes it. *)
Inductive never_throws {A : Type} : Prog A -> Prop :=
| nt_ret (a : A) : never_throws (Ret a)
| nt_call (c : StoreCall) (k : Settled -> Prog A) :
    (forall r, never_throws (k r)) -> never_throws (Call c k)
| nt_log (l : string) (e : JsError) (k : Prog A) :
    never_throws k -> never_throws (ConsoleError l e k).

(** A program that makes no store call and writes no diagnostic. *)
Definition pure {A : Type} (p : Prog A) : Prop :=
  match p with
  | Ret _ | Throw _ => True
  | _ => False
  end.



Definition query_args : JsValue :=
  JObj [("containerName", JStr "c"); ("query", JStr "SELECT * FROM c")].

(** [query_container] asked for the newest note. *)
Definition newest_note_args : JsValue :=
  JObj [("containerName", JStr "notes");
        ("query", JStr sampleQuery);
        ("parameters", JArr [JObj [("name", JStr "@limit"); ("value", JNum 1)]])].



(** Every store call the program can make satisfies [P]. *)
Inductive all_calls (P : StoreCall -> Prop) {A : Type} : Prog A -> Prop :=
| ac_ret (a : A) : all_calls P (Ret a)
| ac_throw (e : JsError) : all_calls P (Throw e)
| ac_call (c : StoreCall) (k : Settled -> Prog A) :
    P c -> (forall r, all_calls P (k r)) -> all_calls P (Call c k)
| ac_log (l : string) (e : JsError) (k : Prog A) :
    all_calls P k -> all_calls P (ConsoleError l e k).

(** Every value the program can return satisfies [P]. *)
Inductive all_returns {A : Type} (P : A -> Prop) : Prog A -> Prop :=
| ar_ret (a : A) : P a -> all_returns P (Ret a)
| ar_throw (e : JsError) : all_returns P (Throw e)
| ar_call (c : StoreCall) (k : Settled -> Prog A) :
    (forall r, all_returns P (k r)) -> all_returns P (Call c k)
| ar_log (l : string) (e : JsError) (k : Prog A) :
    all_returns P k -> all_returns P (ConsoleError l e k).

(** The program makes at most [n] store calls. *)
Inductive at_most_calls {A : Type} : nat -> Prog A -> Prop :=
| am_ret (n : nat) (a : A) : at_most_calls n (Ret a)
| am_throw (n : nat) (e : JsError) : at_most_calls n (Throw e)
| am_call (n : nat) (c : StoreCall) (k : Settled -> Prog A) :
    (forall r, at_most_calls n (k r)) -> at_most_calls (S n) (Call c k)
| am_log (n : nat) (l : string) (e : JsError) (k : Prog A) :
    at_most_calls n k -> at_most_calls n (ConsoleError l e k).

(** The calls that change nothing in the store. *)
Definition reads_only (c : StoreCall) : Prop :=
  match c with
  | ItemRead _ _ _ | ItemsQuery _ _ _ | ContainersReadAll _ => True
  | ItemReplace _ _ _ _ | ItemsCreate _ _ _ => False
  end.

(** The database a call addresses. *)
Definition database_of (c : StoreCall) : string :=
  match c with
  | ItemRead db _ _ | ItemReplace db _ _ _ | ItemsCreate db _ _
  | ItemsQuery db _ _ | ContainersReadAll db => db
  end.

(** The shape every handler's result has: [success] a boolean, [message] a
    string, then the payload. *)
Definition operation_result (v : JsValue) : Prop :=
  exists (success : bool) (message : string) (payload : list (string * JsValue)),
    v = JObj (("success", JBool success) :: ("message", JStr message) :: payload).

(** The number of spaces in a string. *)
Fixpoint spaces (s : string) : nat :=
  match s with
  | EmptyString => 0
  | String c rest => (if Ascii.eqb c JsString.space then 1 else 0) + spaces rest
  end.

(* ================================================================== *)
(** ** The model at concrete inputs *)
(* ================================================================== *)

Section Examples.

Example split_keeps_empty_pieces :
  JsString.split JsString.space " a  b" = [""; "a"; ""; "b"].
Proof. reflexivity. Qed.

Example split_of_empty_string : JsString.split JsString.space "" = [""].
Proof. reflexivity. Qed.

Example truncate_twelve_words :
  truncateLongValues (JStr long_sentence) =
  JStr "lorem ipsum dolor sit amet consectetur adipiscing elit sed do...".
Proof. reflexivity. Qed.

Example truncate_at_the_threshold :
  JsString.length (String.substring 0 100 long_word) = 100
  /\ truncateLongValues (JStr (String.substring 0 100 long_word)) =
     JStr (String.substring 0 100 long_word).
Proof. split; reflexivity. Qed.

Example truncate_leaves_numbers : truncateLongValues (JNum 3) = JNum 3.
Proof. reflexivity. Qed.

Example index_keys_come_first :
  Obj.keys (Js.spread_into [("10", JNull); ("b", JNull)] (JObj [("2", JNull); ("a", JNull)]))
  = ["2"; "10"; "b"; "a"].
Proof. reflexivity. Qed.

Example merge_keeps_unspecified_fields :
  Js.spread_into (Js.spread_into [] (JObj [("id", JStr "x"); ("a", JNum 0); ("b", JNum 2)]))
                 (JObj [("a", JNum 1)])
  = [("id", JStr "x"); ("a", JNum 1); ("b", JNum 2)].
Proof. reflexivity. Qed.

Example stringify_skips_undefined :
  @JSON_stringify example_host
    (JObj [("success", JBool true); ("item", JUndefined); ("n", JArr [JNum 1; JUndefined])])
  = JStr ("{" ++ newline ++ "  " ++ quote "success" ++ ": true," ++ newline
          ++ "  " ++ quote "n" ++ ": [" ++ newline ++ "    1," ++ newline
          ++ "    null" ++ newline ++ "  ]" ++ newline ++ "}").
Proof. reflexivity. Qed.

Example update_item_on_a_missing_container :
  outcome (run Cosmos.store
             (@updateItem example_host
                (JObj [("containerName", JStr "nowhere"); ("id", JStr "x");
                       ("updates", JObj [])]))
             example_db)
  = Returned (failure_result
                ("Failed to update item: Error: " ++ err_message Cosmos.NotFound)).
Proof. reflexivity. Qed.

Example handler_without_arguments :
  outcome (run Cosmos.store (@getItem example_host JUndefined) example_db)
  = Returned (failure_result
                "Failed to get item: TypeError: Cannot destructure property 'containerName' of 'params' as it is undefined.").
Proof. reflexivity. Qed.

Example list_containers_of_the_example :
  outcome (run Cosmos.store (@listContainers example_host) example_db)
  = Returned (success_result "Containers retrieved successfully"
                [("containers", JArr [JStr "c"; JStr "empty"])]).
Proof. reflexivity. Qed.

End Examples.

(* ================================================================== *)
(** ** Properties of objects *)
(* ================================================================== *)

Section ObjectFacts.

Lemma lookup_replace (k k' : string) (v : JsValue) (o : JsObject) :
  Obj.has k' o = true ->
  Obj.lookup k (Obj.replace k' v o) = if String.eqb k k' then Some v else Obj.lookup k o.
Proof.
  unfold Obj.has. induction o as [|[k0 v0] o IH]; simpl; [discriminate|].
  intros H. destruct (String.eqb k' k0) eqn:E0.
  - apply String.eqb_eq in E0. subst k0. simpl. destruct (String.eqb k k'); reflexivity.
  - simpl. destruct (String.eqb k k0) eqn:E1.
    + apply String.eqb_eq in E1. subst k0.
      destruct (String.eqb_spec k k') as [->|_]; [|reflexivity].
      rewrite String.eqb_refl in E0. discriminate.
    + apply IH. exact H.
Qed.

Lemma lookup_app (k : string) (o o' : JsObject) :
  Obj.lookup k (o ++ o') =
  match Obj.lookup k o with Some v => Some v | None => Obj.lookup k o' end.
Proof.
  induction o as [|[k0 v0] o IH]; simpl; [reflexivity|].
  destruct (String.eqb k k0); [reflexivity | exact IH].
Qed.

Lemma lookup_insert_index (n : N) (k k' : string) (v : JsValue) (o : JsObject) :
  Obj.lookup k' o = None ->
  Obj.lookup k (Obj.insert_index n k' v o) =
  if String.eqb k k' then Some v else Obj.lookup k o.
Proof.
  induction o as [|[k0 v0] o IH]; simpl; intros H.
  - destruct (String.eqb k k'); reflexivity.
  - destruct (String.eqb k' k0) eqn:E0; [discriminate|].
    destruct (Obj.array_index k0) as [m|]; [destruct (m <? n)%N|]; simpl;
      try reflexivity.
    destruct (String.eqb k k0) eqn:E1.
    + apply String.eqb_eq in E1. subst k0.
      destruct (String.eqb_spec k k') as [->|_]; [|reflexivity].
      rewrite String.eqb_refl in E0. discriminate.
    + apply IH. exact H.
Qed.

(** Reading a property back after CreateDataProperty. *)
Lemma lookup_define (k k' : string) (v : JsValue) (o : JsObject) :
  Obj.lookup k (Obj.define k' v o) = if String.eqb k k' then Some v else Obj.lookup k o.
Proof.
  unfold Obj.define. destruct (Obj.has k' o) eqn:H.
  - apply lookup_replace. exact H.
  - assert (Hn : Obj.lookup k' o = None)
      by (unfold Obj.has in H; destruct (Obj.lookup k' o); [discriminate | reflexivity]).
    destruct (Obj.array_index k') as [n|].
    + apply lookup_insert_index. exact Hn.
    + rewrite lookup_app. simpl. destruct (String.eqb k k') eqn:E.
      * apply String.eqb_eq in E. subst k'. rewrite Hn. reflexivity.
      * destruct (Obj.lookup k o); reflexivity.
Qed.

Lemma lookup_assign (k k' : string) (v : JsValue) (o : JsObject) :
  Obj.lookup k (Obj.assign k' v o) =
  if String.eqb k' "__proto__" then Obj.lookup k o
  else if String.eqb k k' then Some v else Obj.lookup k o.
Proof.
  unfold Obj.assign. destruct (String.eqb k' "__proto__"); [reflexivity|].
  apply lookup_define.
Qed.

Lemma lookup_Some_keys (k : string) (o : JsObject) :
  (exists v, Obj.lookup k o = Some v) <-> In k (Obj.keys o).
Proof.
  induction o as [|[k0 v0] o IH]; simpl.
  - split; [intros [v H]; discriminate | tauto].
  - destruct (String.eqb k k0) eqn:E.
    + apply String.eqb_eq in E. subst. split; [tauto | eauto].
    + apply String.eqb_neq in E. rewrite IH. split; [tauto | intros [H|H]; congruence].
Qed.

End ObjectFacts.

(* ================================================================== *)
(** ** Properties of [truncateLongValues] *)
(* ================================================================== *)

Section Truncation.

Lemma length_append (s t : string) :
  String.length (s ++ t) = String.length s + String.length t.
Proof. induction s as [|c s IH]; simpl; [reflexivity | now rewrite IH]. Qed.

Lemma split_without_separator (s : string) :
  JsString.has_space s = false -> JsString.split JsString.space s = [s].
Proof.
  induction s as [|c s IH]; simpl; [reflexivity|].
  intros H. apply orb_false_iff in H. destruct H as [Hc Hs].
  rewrite Hc, (IH Hs). reflexivity.
Qed.

Lemma slice0_min {A} (n : nat) (l : list A) :
  JsString.slice0 (Nat.min n (List.length l)) l = JsString.slice0 n l.
Proof.
  unfold JsString.slice0. destruct (Nat.le_ge_cases n (List.length l)) as [H|H].
  - now rewrite Nat.min_l.
  - rewrite Nat.min_r by exact H. rewrite firstn_all. symmetry. now apply firstn_all2.
Qed.

(** The three cases of [truncateLongValues]. *)
Lemma truncate_long (s : string) :
  100 < JsString.length s ->
  truncateLongValues (JStr s) =
  JStr (JsString.join " " (JsString.slice0 10 (JsString.split JsString.space s)) ++ "...").
Proof.
  intros H. unfold truncateLongValues.
  apply Nat.ltb_lt in H. rewrite H. reflexivity.
Qed.

Lemma truncate_short (s : string) :
  JsString.length s <= 100 -> truncateLongValues (JStr s) = JStr s.
Proof.
  intros H. unfold truncateLongValues.
  apply Nat.ltb_ge in H. rewrite H. reflexivity.
Qed.

Lemma truncate_other (v : JsValue) :
  Js.typeof v <> "string" -> truncateLongValues v = v.
Proof. destruct v; simpl; intros H; try reflexivity. now elim H. Qed.

(** Every own property the loop of lines 204-206 leaves in the fresh object,
    read back by key. *)
Lemma lookup_assigned (f : string -> JsValue) (ks : list string) (acc : JsObject) (k : string) :
  Obj.lookup k (fold_left (fun t key => Obj.assign key (f key) t) ks acc) =
  if existsb (String.eqb k) ks && negb (String.eqb k "__proto__")
  then Some (f k) else Obj.lookup k acc.
Proof.
  revert acc. induction ks as [|k0 ks IH]; intros acc; simpl; [reflexivity|].
  rewrite IH, lookup_assign.
  destruct (String.eqb_spec k k0) as [->|Hne]; simpl.
  - destruct (String.eqb k0 "__proto__"); simpl.
    + rewrite andb_false_r. reflexivity.
    + rewrite andb_true_r. destruct (existsb (String.eqb k0) ks); reflexivity.
  - destruct (existsb (String.eqb k) ks && negb (String.eqb k "__proto__")); [reflexivity|].
    destruct (String.eqb k0 "__proto__"); reflexivity.
Qed.

Lemma existsb_keys (k : string) (o : JsObject) :
  existsb (String.eqb k) (Obj.keys o) = Obj.has k o.
Proof.
  unfold Obj.has. induction o as [|[k0 v0] o IH]; simpl; [reflexivity|].
  destruct (String.eqb k k0); [reflexivity | exact IH].
Qed.

(** A field of the truncated item, read by key: the truncation of the raw
    field, except that a key [__proto__] yields no field. *)
Lemma lookup_truncateItem (item : JsValue) (k : string) :
  Obj.lookup k (truncateItem item) =
  if String.eqb k "__proto__" then None
  else option_map truncateLongValues (Obj.lookup k (Js.own_props item)).
Proof.
  unfold truncateItem.
  rewrite (lookup_assigned (fun key => truncateLongValues (Js.get item key))).
  rewrite existsb_keys. unfold Obj.has, Js.get. simpl.
  destruct (Obj.lookup k (Js.own_props item)); simpl;
    destruct (String.eqb k "__proto__"); reflexivity.
Qed.

End Truncation.

(* ================================================================== *)
(** ** Running programs *)
(* ================================================================== *)

Section Running.

Context (st : Store).

Lemma run_bind {A B} (p : Prog A) (f : A -> Prog B) (s : state st) :
  run st (bind p f) s =
  let t := run st p s in
  match outcome t with
  | Returned a =>
      let u := run st (f a) (final t) in
      mkRun (outcome u) (final u) (calls t ++ calls u) (stderr t ++ stderr u)
  | Threw e => mkRun (Threw e) (final t) (calls t) (stderr t)
  end.
Proof.
  revert s. induction p as [a|e|c k IH|l e k IH]; intros s; simpl.
  - destruct (run st (f a) s); reflexivity.
  - reflexivity.
  - destruct (handle st c s) as [r s']. rewrite IH. simpl.
    destruct (outcome (run st (k r) s')); reflexivity.
  - rewrite IH. simpl. destruct (outcome (run st k s)); reflexivity.
Qed.

Lemma run_try_catch {A} (p : Prog A) (h : JsError -> Prog A) (s : state st) :
  run st (try_catch p h) s =
  let t := run st p s in
  match outcome t with
  | Returned a => t
  | Threw e =>
      let u := run st (h e) (final t) in
      mkRun (outcome u) (final u) (calls t ++ calls u) (stderr t ++ stderr u)
  end.
Proof.
  revert s. induction p as [a|e|c k IH|l e k IH]; intros s; simpl.
  - reflexivity.
  - destruct (run st (h e) s); reflexivity.
  - destruct (handle st c s) as [r s']. rewrite IH. simpl.
    destruct (outcome (run st (k r) s')) eqn:E; [|reflexivity].
    destruct (run st (k r) s'); simpl in *. subst. reflexivity.
  - rewrite IH. simpl. destruct (outcome (run st k s)) eqn:E; [|reflexivity].
    destruct (run st k s); simpl in *. subst. reflexivity.
Qed.

Lemma outcome_bind {A B} (p : Prog A) (f : A -> Prog B) (s : state st) :
  outcome (run st (bind p f) s) =
  match outcome (run st p s) with
  | Returned a => outcome (run st (f a) (final (run st p s)))
  | Threw e => Threw e
  end.
Proof. rewrite run_bind. cbv zeta. destruct (outcome (run st p s)); reflexivity. Qed.

Lemma outcome_try_catch {A} (p : Prog A) (h : JsError -> Prog A) (s : state st) :
  outcome (run st (try_catch p h) s) =
  match outcome (run st p s) with
  | Returned a => Returned a
  | Threw e => outcome (run st (h e) (final (run st p s)))
  end.
Proof.
  rewrite run_try_catch. cbv zeta.
  destruct (outcome (run st p s)) eqn:E; [exact E | reflexivity].
Qed.

Lemma never_throws_returns {A} (p : Prog A) (s : state st) :
  never_throws p -> exists a, outcome (run st p s) = Returned a.
Proof.
  intros H. revert s. induction H as [a|c k _ IH|l e k _ IH]; intros s; simpl.
  - eauto.
  - destruct (handle st c s) as [r s']. apply IH.
  - apply IH.
Qed.

End Running.

Lemma never_throws_try_catch {A} (p : Prog A) (h : JsError -> Prog A) :
  (forall e, never_throws (h e)) -> never_throws (try_catch p h).
Proof.
  intros Hh. induction p as [a|e|c k IH|l e k IH]; simpl.
  - constructor.
  - apply Hh.
  - constructor. exact IH.
  - constructor. exact IH.
Qed.

Lemma pure_bind {A B} (p : Prog A) (f : A -> Prog B) :
  pure p -> (forall a, pure (f a)) -> pure (bind p f).
Proof. destruct p; simpl; intros H Hf; try contradiction; [apply Hf | exact I]. Qed.

Lemma destructure_object (v : JsValue) (p : string) :
  Js.is_nullish v = false -> forall source, destructure v p source = Ret (Js.get v p).
Proof. destruct v; simpl; intros H; try reflexivity; discriminate. Qed.

Lemma destructure_nullish (v : JsValue) (p source : string) :
  Js.is_nullish v = true -> exists e, destructure v p source = Throw e.
Proof. destruct v; unfold destructure; simpl; intros H; try discriminate; eauto. Qed.

Lemma map_prog_ret {A B} (f : A -> B) (l : list A) :
  map_prog (fun x => Ret (f x)) l = Ret (map f l).
Proof. induction l as [|x l IH]; simpl; [reflexivity | now rewrite IH]. Qed.

(* ================================================================== *)
(** ** [sample_item] *)
(* ================================================================== *)

Section SampleItem.

Context {host : Host} (st : Store).

Lemma sampleItem_fulfilled (s s1 : state st) (params response : JsValue)
  (c : string) (resources : list JsValue) :
  names_container params c ->
  fulfils st (sampleQueryCall params c) s response s1 ->
  Js.get response "resources" = JArr resources ->
  documents resources ->
  run st (sampleItem params) s =
  mkRun (Returned (sampleResult c resources)) s1 [sampleQueryCall params c] [].
Proof.
  intros [Hp Hc] [Hq Hr] Hres Hdocs.
  unfold sampleItem, sampleQueryCall in *.
  rewrite !(destructure_object params) by exact Hp. rewrite Hc. simpl. rewrite Hq. simpl.
  rewrite (destructure_object response) by exact Hr. rewrite Hres. simpl.
  rewrite map_prog_ret. simpl.
  destruct resources as [|first rest]; simpl; [reflexivity|].
  unfold Object_keys. inversion Hdocs as [|? ? Hfirst _]; subst.
  rewrite Hfirst. reflexivity.
Qed.

End SampleItem.

Section TruncationClaims.

Lemma truncate_meets_spec (v : JsValue) : spec_truncated v (truncateLongValues v).
Proof.
  split.
  - intros str -> H. now apply truncate_long.
  - intros H. destruct v; try reflexivity. apply truncate_short. now apply H.
Qed.

(** C9. A string of more than 100 characters becomes its first
    min(10, word count) space-separated words joined by spaces plus ["..."];
    when it holds no space at all this is the whole string plus ["..."], three
    characters longer than the input and so still longer than 100. *)
Theorem truncate_unbroken_string_grows (s : string) :
  100 < JsString.length s ->
  let words := JsString.split JsString.space s in
  truncateLongValues (JStr s) =
    JStr (JsString.join " " (JsString.slice0 (Nat.min 10 (List.length words)) words) ++ "...")
  /\ (JsString.has_space s = false ->
      truncateLongValues (JStr s) = JStr (s ++ "...")
      /\ JsString.length (s ++ "...") = JsString.length s + 3
      /\ 100 < JsString.length (s ++ "...")).
Proof.
  intros H words. split.
  - rewrite slice0_min. now apply truncate_long.
  - intros Hs. rewrite (truncate_long s H).
    rewrite (split_without_separator s Hs). simpl.
    unfold JsString.length in *. rewrite length_append. simpl.
    repeat split. lia.
Qed.

Lemma truncate_unbroken_string_grows_witness :
  truncateLongValues (JStr long_word) = JStr (long_word ++ "...")
  /\ JsString.length (long_word ++ "...") = 104.
Proof.
  destruct (truncate_unbroken_string_grows long_word) as [_ H].
  - unfold JsString.length. simpl. lia.
  - destruct (H eq_refl) as [H1 [H2 _]]. split; [exact H1 | exact H2].
Defined.

End TruncationClaims.

Section SampleClaims.

Context {host : Host} (st : Store).

Lemma lookup_head_distinct (k0 : string) (v0 : JsValue) (o : JsObject) (k : string) :
  distinct (Obj.keys ((k0, v0) :: o)) = true -> In k (Obj.keys o) ->
  Obj.lookup k ((k0, v0) :: o) = Obj.lookup k o.
Proof.
  simpl. intros H Hin. apply andb_true_iff in H. destruct H as [H _].
  destruct (String.eqb_spec k k0) as [->|_]; [|reflexivity].
  apply negb_true_iff in H.
  assert (Hex : existsb (String.eqb k0) (Obj.keys o) = true).
  { apply existsb_exists. exists k0. split; [exact Hin | apply String.eqb_refl]. }
  congruence.
Qed.

(** Over an object without duplicate keys, reading each key gives the
    entries in order. *)
Lemma map_keys_entries {B} (g : string -> JsValue -> B) (o : JsObject) :
  distinct (Obj.keys o) = true ->
  map (fun k => g k (match Obj.lookup k o with Some x => x | None => JUndefined end))
      (Obj.keys o)
  = map (fun kv => g (fst kv) (snd kv)) o.
Proof.
  induction o as [|[k0 v0] o IH]; intros H; [reflexivity|].
  cbn [Obj.keys map fst snd]. f_equal.
  - simpl. now rewrite String.eqb_refl.
  - rewrite <- IH by (simpl in H; apply andb_true_iff in H; tauto).
    apply map_ext_in. intros k Hin.
    now rewrite (lookup_head_distinct k0 v0 o k H Hin).
Qed.

(** X19. When the sampling query is fulfilled with documents, the result is
    a success whose [items] are objects, one per document and in the same
    order; read by key, a returned item has no field [__proto__], and under
    any other key it has the truncation of the document's field of that name
    when there is one and no field otherwise. *)
Theorem sample_item_items_are_truncated_documents (s s1 : state st)
  (params response : JsValue) (c : string) (resources : list JsValue) :
  names_container params c ->
  fulfils st (sampleQueryCall params c) s response s1 ->
  Js.get response "resources" = JArr resources ->
  documents resources ->
  exists (result : JsValue) (items : list JsObject),
    outcome (run st (sampleItem params) s) = Returned result
    /\ Js.get result "success" = JBool true
    /\ Js.get result "items" = JArr (map JObj items)
    /\ Forall2
         (fun raw item =>
            forall k,
              Obj.lookup k item =
              if String.eqb k "__proto__" then None
              else option_map truncateLongValues (Obj.lookup k (Js.own_props raw)))
         resources items.
Proof.
  intros Hp Hq Hres Hdocs.
  exists (sampleResult c resources), (map truncateItem resources).
  rewrite (sampleItem_fulfilled st s s1 params response c resources Hp Hq Hres Hdocs).
  repeat split.
  - simpl. now rewrite map_map.
  - clear. induction resources as [|raw rest IH]; simpl; constructor; [|exact IH].
    intros k. apply lookup_truncateItem.
Qed.

(** C5. When the sampling query is fulfilled with documents, [schema] is
    empty for an empty feed and otherwise has one entry per field of the
    first document, in order: the field's name, the [typeof] of its raw
    value, and the truncated value; the other documents play no part. *)
Theorem sample_item_schema_from_first_item (s s1 : state st) (params response : JsValue)
  (c : string) (resources : list JsValue) :
  names_container params c ->
  fulfils st (sampleQueryCall params c) s response s1 ->
  Js.get response "resources" = JArr resources ->
  documents resources ->
  Forall (fun item => well_formed item = true) resources ->
  exists result,
    outcome (run st (sampleItem params) s) = Returned result
    /\ Js.get result "schema" =
       JArr match resources with
            | [] => []
            | first :: _ => map schema_of_field (Js.own_props first)
            end.
Proof.
  intros Hp Hq Hres Hdocs Hwf.
  exists (sampleResult c resources).
  rewrite (sampleItem_fulfilled st s s1 params response c resources Hp Hq Hres Hdocs).
  split; [reflexivity|].
  destruct resources as [|first rest]; [reflexivity|].
  inversion Hwf as [|? ? Hfirst _]; subst.
  change (Js.get (sampleResult c (first :: rest)) "schema")
    with (JArr (map (schemaEntry first) (Obj.keys (Js.own_props first)))).
  f_equal. unfold schemaEntry, Js.get.
  apply (map_keys_entries
           (fun k x => JObj [("field", JStr k); ("type", JStr (Js.typeof x));
                             ("sample", truncateLongValues x)])
           (Js.own_props first) Hfirst).
Qed.

End SampleClaims.

Lemma sample_item_items_are_truncated_documents_witness :
  exists (result : JsValue) (items : list JsObject),
    outcome (run Cosmos.store (@sampleItem example_host (sample_args "notes" (JNum 2))) notes_db)
      = Returned result
    /\ Js.get result "success" = JBool true
    /\ Js.get result "items" = JArr (map JObj items)
    /\ Forall2
         (fun raw item =>
            forall k,
              Obj.lookup k item =
              if String.eqb k "__proto__" then None
              else option_map truncateLongValues (Obj.lookup k (Js.own_props raw)))
         [JObj note2; JObj note1] items.
Proof.
  apply (@sample_item_items_are_truncated_documents example_host Cosmos.store
           notes_db notes_db (sample_args "notes" (JNum 2))
           (JObj [("resources", JArr [JObj note2; JObj note1])]) "notes").
  - split; reflexivity.
  - split; reflexivity.
  - reflexivity.
  - repeat constructor.
Defined.

Lemma sample_item_schema_from_first_item_witness :
  exists result,
    outcome (run Cosmos.store (@sampleItem example_host (sample_args "notes" (JNum 2))) notes_db)
      = Returned result
    /\ Js.get result "schema" = JArr (map schema_of_field note2).
Proof.
  apply (@sample_item_schema_from_first_item example_host Cosmos.store notes_db notes_db
           (sample_args "notes" (JNum 2))
           (JObj [("resources", JArr [JObj note2; JObj note1])]) "notes"
           [JObj note2; JObj note1]).
  - split; reflexivity.
  - split; reflexivity.
  - reflexivity.
  - repeat constructor.
  - repeat constructor.
Defined.


(* ================================================================== *)
(** ** Field names under truncation *)
(* ================================================================== *)

Section FieldNames.

(** The field names of a truncated item are those of the document, minus
    [__proto__]. *)
Lemma keys_truncateItem (item : JsValue) (k : string) :
  In k (Obj.keys (truncateItem item)) <->
  In k (Obj.keys (Js.own_props item)) /\ k <> "__proto__".
Proof.
  rewrite <- !lookup_Some_keys. rewrite lookup_truncateItem.
  destruct (String.eqb_spec k "__proto__") as [->|Hk].
  - split; [intros [v H]; discriminate | intros [_ H]; now elim H].
  - destruct (Obj.lookup k (Js.own_props item)) as [v|]; simpl.
    + split; eauto.
    + split; [intros [v H]; discriminate | intros [[v H] _]; discriminate].
Qed.

(** C4. At a document with a string field named [__proto__] the field's
    value does not reach the returned item: the rule asks that the short
    string ["x"] pass through unchanged and that a long string be shown as
    its first ten words plus ["..."], but the item returned by [sampleItem]
    has no such field at all, short or long. *)
Theorem sample_item_loses_the_proto_value :
  let t := run Cosmos.store (@sampleItem example_host (sample_args "odd" JUndefined)) odd_db in
  Obj.lookup "__proto__" odd_doc = Some (JStr "x")
  /\ (forall shown, spec_truncated (JStr "x") shown -> shown = JStr "x")
  /\ (exists result,
        outcome t = Returned result
        /\ Js.get result "items" = JArr [JObj [("id", JStr "1")]])
  /\ Obj.lookup "__proto__" (truncateItem (JObj odd_doc)) = None
  /\ Obj.lookup "__proto__" odd_long_doc = Some (JStr long_sentence)
  /\ (forall shown,
        spec_truncated (JStr long_sentence) shown ->
        shown = JStr "lorem ipsum dolor sit amet consectetur adipiscing elit sed do...")
  /\ truncateItem (JObj odd_long_doc) = [("id", JStr "2")].
Proof.
  cbv zeta. split; [reflexivity|]. split.
  { intros shown [_ Hshort]. apply Hshort. intros str E. injection E as <-.
    unfold JsString.length. simpl. lia. }
  split; [eexists; split; reflexivity|]. split; [reflexivity|]. split; [reflexivity|].
  split; [|reflexivity].
  intros shown [Hlong _]. apply (Hlong long_sentence eq_refl).
  unfold JsString.length. simpl. lia.
Qed.

(** C10. At a document that has a field named [__proto__] the truncated item
    of the [items] payload lacks that field: the assignment
    [truncatedItem[key] = ...] reaches the inherited setter and creates no
    own property. *)
Theorem sample_item_drops_proto_field :
  let run_ := run Cosmos.store (@sampleItem example_host (sample_args "odd" JUndefined)) odd_db in
  calls run_ = [@sampleQueryCall example_host (sample_args "odd" JUndefined) "odd"]
  /\ (exists result,
        outcome run_ = Returned result
        /\ Js.get result "items" = JArr [JObj (truncateItem (JObj odd_doc))])
  /\ Obj.keys odd_doc = ["id"; "__proto__"]
  /\ Obj.keys (truncateItem (JObj odd_doc)) = ["id"]
  /\ ~ (forall k, In k (Obj.keys odd_doc) <-> In k (Obj.keys (truncateItem (JObj odd_doc)))).
Proof.
  cbv zeta. split; [reflexivity|]. split; [eexists; split; reflexivity|].
  split; [reflexivity|]. split; [reflexivity|].
  intros H. destruct (H "__proto__") as [H1 _].
  assert (Hin : In "__proto__" (Obj.keys (truncateItem (JObj odd_doc)))).
  { apply H1. simpl. tauto. }
  apply keys_truncateItem in Hin. destruct Hin as [_ Hne]. now apply Hne.
Qed.

End FieldNames.

(* ================================================================== *)
(** ** The dispatcher *)
(* ================================================================== *)

Section Dispatcher.

Context {host : Host} (st : Store).

Ltac handler_returns :=
  apply never_throws_try_catch; intros; repeat constructor.

Lemma updateItem_never_throws params : never_throws (updateItem params).
Proof. handler_returns. Qed.

Lemma putItem_never_throws params : never_throws (putItem params).
Proof. handler_returns. Qed.

Lemma getItem_never_throws params : never_throws (getItem params).
Proof. handler_returns. Qed.

Lemma queryContainer_never_throws params : never_throws (queryContainer params).
Proof. handler_returns. Qed.

Lemma listContainers_never_throws : never_throws listContainers.
Proof. handler_returns. Qed.

Lemma sampleItem_never_throws params : never_throws (sampleItem params).
Proof. handler_returns. Qed.

Lemma known_tool_cases (n : string) :
  In n toolNames ->
  n = "put_item" \/ n = "get_item" \/ n = "query_container"
  \/ n = "update_item" \/ n = "list_containers" \/ n = "sample_item".
Proof. simpl. intuition. Qed.

(** For a name of the catalogue the [switch] runs that handler and takes its
    result; it makes the handler's store calls and nothing else. *)
Lemma route_known (request : Request) (s : state st) :
  In (name request) toolNames ->
  exists (handler : Prog JsValue) (result : JsValue),
    never_throws handler
    /\ outcome (run st handler s) = Returned result
    /\ run st (route request) s =
       mkRun (Returned (inr result)) (final (run st handler s))
             (calls (run st handler s)) (stderr (run st handler s)).
Proof.
  intros Hin. apply known_tool_cases in Hin. unfold route.
  assert (Hgen : forall handler : Prog JsValue, never_throws handler ->
            exists (h : Prog JsValue) (result : JsValue),
              never_throws h /\ outcome (run st h s) = Returned result
              /\ run st (bind handler (fun r => Ret (inr r))) s =
                 mkRun (Returned (inr result) : Outcome (JsValue + JsValue))
                   (final (run st h s)) (calls (run st h s)) (stderr (run st h s))).
  { intros handler Hnt. destruct (never_throws_returns st handler s Hnt) as [result Hres].
    exists handler, result. split; [exact Hnt|]. split; [exact Hres|].
    rewrite run_bind. cbv zeta. rewrite Hres. simpl. now rewrite !app_nil_r. }
  destruct Hin as [E|[E|[E|[E|[E|E]]]]]; rewrite E.
  - exact (Hgen _ (putItem_never_throws _)).
  - exact (Hgen _ (getItem_never_throws _)).
  - exact (Hgen _ (queryContainer_never_throws _)).
  - exact (Hgen _ (updateItem_never_throws _)).
  - exact (Hgen _ listContainers_never_throws).
  - exact (Hgen _ (sampleItem_never_throws _)).
Qed.

Lemma route_unknown (request : Request) :
  ~ In (name request) toolNames ->
  route request =
  Ret (inl (JObj [("content", text_content (JStr ("Unknown tool: " ++ name request)));
                  ("isError", JBool true)])).
Proof.
  intros Hn. unfold route.
  repeat match goal with
         | |- context [String.eqb (name request) ?lit] =>
             destruct (String.eqb_spec (name request) lit) as [E|_];
             [exfalso; apply Hn; rewrite E; simpl; tauto|]
         end.
  reflexivity.
Qed.

(** C6. For a name outside the catalogue the dispatcher returns, without
    throwing and without a store call, the response flagged [isError: true]
    whose one text block is ["Unknown tool: "] followed by the name. *)
Theorem unknown_tool_is_reported (request : Request) (s : state st) :
  ~ In (name request) toolNames ->
  run st (callTool request) s =
  mkRun (Returned (JObj [("content",
                          JArr [JObj [("type", JStr "text");
                                      ("text", JStr ("Unknown tool: " ++ name request))]]);
                         ("isError", JBool true)]))
        s [] [].
Proof.
  intros Hn. unfold callTool, callTool_body. rewrite (route_unknown request Hn).
  reflexivity.
Qed.

(** C7. The dispatcher always returns a response. Its [isError] flag is set
    exactly when the name is outside the catalogue or the [try] block threw;
    for a name of the catalogue the handler's result, whatever its [success]
    field, comes back as the serialized text of a response that has no
    [isError] property. *)
Theorem isError_only_from_dispatcher (request : Request) (s : state st) :
  exists response,
    outcome (run st (callTool request) s) = Returned response
    /\ (isError response = true <->
        ~ In (name request) toolNames
        \/ exists e, outcome (run st (callTool_body request) s) = Threw e)
    /\ (In (name request) toolNames ->
        exists result,
          outcome (run st (route request) s) = Returned (inr result)
          /\ response = JObj [("content", text_content (JSON_stringify result))]
          /\ Obj.lookup "isError" (Js.own_props response) = None).
Proof.
  destruct (in_dec string_dec (name request) toolNames) as [Hin|Hout].
  - destruct (route_known request s Hin) as (handler & result & _ & _ & Hrun).
    assert (Hbody : outcome (run st (callTool_body request) s) =
                    Returned (JObj [("content", text_content (JSON_stringify result))])).
    { unfold callTool_body. rewrite run_bind, Hrun. reflexivity. }
    exists (JObj [("content", text_content (JSON_stringify result))]).
    split; [|split].
    + unfold callTool. rewrite run_try_catch. cbv zeta. now rewrite Hbody.
    + split; [discriminate|].
      intros [H|[e H]]; [contradiction | congruence].
    + intros _. exists result. rewrite Hrun. repeat split.
  - eexists. unfold callTool, callTool_body. rewrite (route_unknown request Hout).
    split; [reflexivity|]. split; [|contradiction].
    split; [tauto | reflexivity].
Qed.

End Dispatcher.

(* ================================================================== *)
(** ** The item handlers *)
(* ================================================================== *)

Section ItemHandlers.

Context {host : Host} (st : Store).


Lemma ToString_pure (v : JsValue) : pure (ToString v).
Proof.
  revert v. fix IH 1. intros [| |[|]|n|str|elems|props]; simpl; try exact I.
  - apply pure_bind; [|intros; exact I].
    induction elems as [|x rest IHrest]; [exact I|].
    apply pure_bind.
    + destruct (Js.is_nullish x); [exact I | apply IH].
    + intros sx. apply pure_bind; [exact IHrest | intros; exact I].
  - destruct (Obj.has "toString" props); exact I.
Qed.

(** X18. When the [create] call is fulfilled, [putItem] returns
    [success: true] with the created resource as [item], after that one call
    and with nothing logged. *)
Lemma putItem_creates_once (s s1 : state st) (params response : JsValue) (c : string) :
  names_container params c ->
  fulfils st (ItemsCreate dbName (JStr c) (Js.get params "item")) s response s1 ->
  run st (putItem params) s =
  mkRun (Returned (success_result ("Item added successfully to container " ++ c)
                     [("item", Js.get response "resource")]))
        s1 [ItemsCreate dbName (JStr c) (Js.get params "item")] [].
Proof.
  intros [Hp Hc] [Hq Hr]. unfold putItem.
  rewrite !(destructure_object params) by exact Hp. rewrite Hc. simpl. rewrite Hq. simpl.
  rewrite (destructure_object response) by exact Hr. reflexivity.
Qed.

(** C3. When the point read is fulfilled without a resource, [getItem]
    returns, after that one call and with nothing logged, a result with
    [success: true] whose [item] is [undefined]; serialized, the result has
    no [item] field at all. *)
Theorem getItem_missing_item_succeeds (s s1 : state st) (params response : JsValue)
  (c : string) :
  names_container params c ->
  fulfils st (ItemRead dbName (JStr c) (Js.get params "id")) s response s1 ->
  Js.get response "resource" = JUndefined ->
  exists result,
    run st (getItem params) s =
      mkRun (Returned result) s1 [ItemRead dbName (JStr c) (Js.get params "id")] []
    /\ Js.get result "success" = JBool true
    /\ Js.get result "item" = JUndefined
    /\ JSON_stringify result =
       JSON_stringify
         (JObj [("success", JBool true);
                ("message", JStr ("Item retrieved successfully from container " ++ c))]).
Proof.
  intros [Hp Hc] [Hq Hr] Hres. eexists. split; [|split; [|split]].
  - unfold getItem. rewrite !(destructure_object params) by exact Hp.
    rewrite Hc. simpl. rewrite Hq. simpl.
    rewrite (destructure_object response) by exact Hr. rewrite Hres. reflexivity.
  - reflexivity.
  - reflexivity.
  - reflexivity.
Qed.


(** C8. Two [get_item] calls with the same arguments, made in two states in
    which the store settles the point read the same way, return the same
    response, so the same serialized result. *)
Theorem get_item_is_deterministic (s s' : state st) (args : JsValue) :
  let request := {| name := "get_item"; arguments := args |} in
  let read := ItemRead dbName (Js.get args "containerName") (Js.get args "id") in
  fst (handle st read s) = fst (handle st read s') ->
  outcome (run st (callTool request) s) = outcome (run st (callTool request) s').
Proof.
  intros request read Hsame.
  assert (Hget : outcome (run st (getItem args) s) = outcome (run st (getItem args) s')).
  { unfold getItem. destruct (Js.is_nullish args) eqn:Hargs.
    { destruct (destructure_nullish args "containerName" "params" Hargs) as [e ->]. reflexivity. }
    rewrite !(destructure_object args) by exact Hargs. simpl. fold read.
    destruct (handle st read s) as [r s1]. destruct (handle st read s') as [r' s1'].
    simpl in Hsame. subst r'.
    destruct r as [response|e]; simpl; [|reflexivity].
    destruct (Js.is_nullish response) eqn:Hresp.
    { destruct (destructure_nullish response "resource" "(intermediate value)" Hresp) as [e ->]. reflexivity. }
    rewrite (destructure_object response) by exact Hresp. simpl.
    pose proof (ToString_pure (Js.get args "containerName")) as Hpure.
    destruct (ToString (Js.get args "containerName")); simpl in *;
      try contradiction; reflexivity. }
  assert (Hroute : route request = bind (getItem args) (fun r => Ret (inr r)))
    by reflexivity.
  unfold callTool, callTool_body. rewrite Hroute.
  rewrite !outcome_try_catch, !outcome_bind, Hget.
  destruct (outcome (run st (getItem args) s')); reflexivity.
Qed.

End ItemHandlers.

(* ================================================================== *)
(** ** The handlers on the reference store *)
(* ================================================================== *)

Section OnReferenceStore.

(** A point read leaves the reference store as it is. *)
Lemma read_leaves_database (d : string) (c id : JsValue) (db : Cosmos.Database) :
  snd (Cosmos.answer (ItemRead d c id) db) = db.
Proof.
  destruct c, id; simpl; try reflexivity.
  destruct (String.eqb d (Cosmos.db_id db)); reflexivity.
Qed.

(** C1. [putItem] calls [items.create], not an upsert: for an id that is
    free the item is inserted and returned with [success: true], but for an
    id that is taken the store rejects the call, the handler returns
    [success: false], and the stored item is the old one. *)
Theorem put_item_rejects_existing_id :
  run Cosmos.store (@putItem example_host put_fresh_args) example_db =
    mkRun (Returned (success_result "Item added successfully to container c"
                       [("item", JObj [("id", JStr "y"); ("a", JNum 9)])]))
          (Cosmos.with_docs example_db "c"
             [[("id", JStr "y"); ("a", JNum 9)];
              [("id", JStr "x"); ("a", JNum 0); ("b", JNum 2)]])
          [ItemsCreate "todos" (JStr "c") (JObj [("id", JStr "y"); ("a", JNum 9)])] []
  /\ run Cosmos.store (@putItem example_host put_args) example_db =
       mkRun (Returned (failure_result
                ("Failed to put item: Error: " ++ err_message Cosmos.Conflict)))
             example_db
             [ItemsCreate "todos" (JStr "c") (JObj [("id", JStr "x"); ("a", JNum 9)])]
             [("Error putting item:", Cosmos.Conflict)]
  /\ Cosmos.read (final (run Cosmos.store (@putItem example_host put_args) example_db))
       "c" "x" =
       Cosmos.response (JObj [("id", JStr "x"); ("a", JNum 0); ("b", JNum 2)]).
Proof. repeat split. Qed.

End OnReferenceStore.

(* ================================================================== *)
(** ** The theorems at concrete inputs *)
(* ================================================================== *)

Lemma unknown_tool_is_reported_witness :
  run Cosmos.store (@callTool example_host {| name := "delete_item"; arguments := JUndefined |})
      example_db =
  mkRun (Returned (JObj [("content",
                          JArr [JObj [("type", JStr "text");
                                      ("text", JStr "Unknown tool: delete_item")]]);
                         ("isError", JBool true)]))
        example_db [] [].
Proof.
  apply (@unknown_tool_is_reported example_host Cosmos.store
           {| name := "delete_item"; arguments := JUndefined |} example_db).
  simpl. intuition discriminate.
Defined.

Lemma getItem_missing_item_succeeds_witness :
  exists result,
    run Cosmos.store (@getItem example_host (get_args "nope")) example_db =
      mkRun (Returned result) example_db [ItemRead "todos" (JStr "c") (JStr "nope")] []
    /\ Js.get result "success" = JBool true
    /\ Js.get result "item" = JUndefined
    /\ @JSON_stringify example_host result =
       @JSON_stringify example_host
         (JObj [("success", JBool true);
                ("message", JStr "Item retrieved successfully from container c")]).
Proof.
  apply (@getItem_missing_item_succeeds example_host Cosmos.store example_db example_db
           (get_args "nope") (JObj [("resource", JUndefined)]) "c").
  - split; reflexivity.
  - split; reflexivity.
  - reflexivity.
Defined.


Lemma get_item_is_deterministic_witness :
  let request := {| name := "get_item"; arguments := get_args "x" |} in
  let first := run Cosmos.store (@callTool example_host request) example_db in
  outcome first = outcome (run Cosmos.store (@callTool example_host request) (final first)).
Proof.
  intros request first.
  apply (@get_item_is_deterministic example_host Cosmos.store example_db (final first)
           (get_args "x")).
  reflexivity.
Defined.

(* ================================================================== *)
(** ** What a program can call and return *)
(* ================================================================== *)

Section ProgramFacts.

Lemma pure_destructure (v : JsValue) (p source : string) : pure (destructure v p source).
Proof. destruct v; exact I. Qed.

Lemma pure_member (v : JsValue) (p : string) : pure (member v p).
Proof. unfold member. destruct v; exact I. Qed.

Lemma pure_Object_keys (v : JsValue) : pure (Object_keys v).
Proof. unfold Object_keys. destruct (Js.is_nullish v); exact I. Qed.

Lemma pure_map_prog {A B} (f : A -> Prog B) (l : list A) :
  (forall x, pure (f x)) -> pure (map_prog f l).
Proof.
  intros Hf. induction l as [|x l IH]; simpl; [exact I|].
  apply pure_bind; [apply Hf|]. intros y. apply pure_bind; [exact IH|]. intros; exact I.
Qed.

Lemma pure_array_map {B} (resources : JsValue) (f : JsValue -> Prog B) :
  (forall x, pure (f x)) -> pure (array_map resources f).
Proof. intros Hf. destruct resources; simpl; try exact I. now apply pure_map_prog. Qed.

Lemma pure_sampleSchema (resources : list JsValue) : pure (sampleSchema resources).
Proof.
  destruct resources as [|first rest]; simpl; [exact I|].
  apply pure_bind; [apply pure_Object_keys | intros; exact I].
Qed.

Section Calls.

Context (P : StoreCall -> Prop).

Lemma all_calls_pure {A} (p : Prog A) : pure p -> all_calls P p.
Proof. destruct p; simpl; intros H; try contradiction; constructor. Qed.

Lemma all_calls_bind {A B} (p : Prog A) (f : A -> Prog B) :
  all_calls P p -> (forall a, all_calls P (f a)) -> all_calls P (bind p f).
Proof.
  intros H Hf. induction H; simpl; [apply Hf | constructor | constructor; auto | constructor; auto].
Qed.

Lemma all_calls_await {B} (c : StoreCall) (f : JsValue -> Prog B) :
  P c -> (forall v, all_calls P (f v)) -> all_calls P (bind (await c) f).
Proof.
  intros Hc Hf. simpl. constructor; [exact Hc|].
  intros [v|e]; simpl; [apply Hf | constructor].
Qed.

Lemma all_calls_try_catch {A} (p : Prog A) (h : JsError -> Prog A) :
  all_calls P p -> (forall e, all_calls P (h e)) -> all_calls P (try_catch p h).
Proof.
  intros H Hh. induction H; simpl; [constructor | apply Hh | constructor; auto | constructor; auto].
Qed.

Lemma all_calls_run (st : Store) {A} (p : Prog A) (s : state st) :
  all_calls P p -> Forall P (calls (run st p s)).
Proof.
  intros H. revert s. induction H as [a|e|c k Hc _ IH|l e k _ IH]; intros s; simpl.
  - constructor.
  - constructor.
  - destruct (handle st c s) as [r s']. simpl. constructor; [exact Hc | apply IH].
  - apply IH.
Qed.

End Calls.

Lemma all_returns_bind {A B} (P : B -> Prop) (p : Prog A) (f : A -> Prog B) :
  (forall a, all_returns P (f a)) -> all_returns P (bind p f).
Proof.
  intros Hf. induction p as [a|e|c k IH|l e k IH]; simpl;
    [apply Hf | constructor | constructor; exact IH | constructor; exact IH].
Qed.

Lemma all_returns_try_catch {A} (P : A -> Prop) (p : Prog A) (h : JsError -> Prog A) :
  all_returns P p -> (forall e, all_returns P (h e)) -> all_returns P (try_catch p h).
Proof.
  intros H Hh. induction H; simpl;
    [now constructor | apply Hh | constructor; auto | constructor; auto].
Qed.

Lemma all_returns_run (st : Store) {A} (P : A -> Prop) (p : Prog A) (s : state st) (a : A) :
  all_returns P p -> outcome (run st p s) = Returned a -> P a.
Proof.
  intros H. revert s. induction H as [a' Ha|e|c k _ IH|l e k _ IH]; intros s; simpl.
  - intros E. injection E as <-. exact Ha.
  - discriminate.
  - destruct (handle st c s) as [r s']. simpl. apply IH.
  - apply IH.
Qed.

Lemma at_most_calls_le {A} (n m : nat) (p : Prog A) :
  at_most_calls n p -> n <= m -> at_most_calls m p.
Proof.
  intros H. revert m. induction H as [n a|n e|n c k _ IH|n l e k _ IH]; intros m Hle.
  - constructor.
  - constructor.
  - destruct m as [|m]; [lia|]. constructor. intros r. apply IH. lia.
  - constructor. now apply IH.
Qed.

Lemma at_most_calls_pure {A} (n : nat) (p : Prog A) : pure p -> at_most_calls n p.
Proof. destruct p; simpl; intros H; try contradiction; constructor. Qed.

Lemma at_most_calls_bind_pure {A B} (n : nat) (p : Prog A) (f : A -> Prog B) :
  pure p -> (forall a, at_most_calls n (f a)) -> at_most_calls n (bind p f).
Proof. destruct p; simpl; intros H Hf; try contradiction; [apply Hf | constructor]. Qed.

Lemma at_most_calls_await {B} (n : nat) (c : StoreCall) (f : JsValue -> Prog B) :
  (forall v, at_most_calls n (f v)) -> at_most_calls (S n) (bind (await c) f).
Proof.
  intros Hf. simpl. constructor. intros [v|e]; simpl; [apply Hf | constructor].
Qed.

Lemma at_most_calls_try_catch {A} (n : nat) (p : Prog A) (h : JsError -> Prog A) :
  at_most_calls n p -> (forall e, at_most_calls 0 (h e)) -> at_most_calls n (try_catch p h).
Proof.
  intros H Hh. induction H as [n a|n e|n c k _ IH|n l e k _ IH]; simpl.
  - constructor.
  - apply (at_most_calls_le 0); [apply Hh | lia].
  - constructor. exact IH.
  - constructor. exact IH.
Qed.

Lemma at_most_calls_run (st : Store) {A} (n : nat) (p : Prog A) (s : state st) :
  at_most_calls n p -> List.length (calls (run st p s)) <= n.
Proof.
  intros H. revert s. induction H as [n a|n e|n c k _ IH|n l e k _ IH]; intros s; simpl.
  - lia.
  - lia.
  - destruct (handle st c s) as [r s']. simpl. specialize (IH r s'). lia.
  - apply IH.
Qed.

End ProgramFacts.

(* ================================================================== *)
(** ** What every handler does *)
(* ================================================================== *)

Ltac purity :=
  first [ apply pure_destructure
        | apply ToString_pure
        | apply pure_sampleSchema
        | apply pure_array_map; intros; first [exact I | apply pure_member]
        | match goal with |- pure (if ?b then _ else _) => destruct b; exact I end
        | exact I ].

Ltac pure_body :=
  repeat (cbv zeta; apply pure_bind; [purity | intros]); exact I.

Section HandlerFacts.

Context {host : Host} (st : Store).

Ltac handler_calls H :=
  apply all_calls_try_catch; [|intros; repeat constructor];
  repeat (cbv zeta;
          first [ apply all_calls_await; [apply H | intros]
                | apply all_calls_bind; [apply all_calls_pure; purity | intros]
                | constructor ]).

Ltac handler_budget :=
  apply at_most_calls_try_catch; [|intros; repeat constructor];
  repeat (cbv zeta;
          match goal with
          | |- at_most_calls _ (bind (await _) _) => apply at_most_calls_await; intros
          | |- at_most_calls _ (bind _ _) => apply at_most_calls_bind_pure; [purity | intros]
          | |- at_most_calls _ (Ret _) => constructor
          end).

Ltac handler_result :=
  apply all_returns_try_catch;
  [ repeat (cbv zeta; apply all_returns_bind; intros)
  | intros; repeat constructor ];
  repeat constructor; unfold operation_result, success_result, failure_result; eauto.

Lemma updateItem_calls (P : StoreCall -> Prop) (params : JsValue) :
  (forall c id, P (ItemRead dbName c id)) ->
  (forall c id body, P (ItemReplace dbName c id body)) ->
  all_calls P (updateItem params).
Proof.
  intros Hread Hreplace.
  apply all_calls_try_catch; [|intros; repeat constructor].
  repeat (cbv zeta;
          first [ apply all_calls_await; [first [apply Hread | apply Hreplace] | intros]
                | apply all_calls_bind; [apply all_calls_pure; purity | intros]
                | constructor ]).
Qed.

Lemma putItem_calls (P : StoreCall -> Prop) (params : JsValue) :
  (forall c body, P (ItemsCreate dbName c body)) -> all_calls P (putItem params).
Proof. intros H. handler_calls H. Qed.

Lemma getItem_calls (P : StoreCall -> Prop) (params : JsValue) :
  (forall c id, P (ItemRead dbName c id)) -> all_calls P (getItem params).
Proof. intros H. handler_calls H. Qed.

Lemma queryContainer_calls (P : StoreCall -> Prop) (params : JsValue) :
  (forall c spec, P (ItemsQuery dbName c spec)) -> all_calls P (queryContainer params).
Proof. intros H. handler_calls H. Qed.

Lemma listContainers_calls (P : StoreCall -> Prop) :
  P (ContainersReadAll dbName) -> all_calls P listContainers.
Proof. intros H. handler_calls H. Qed.

Lemma sampleItem_calls (P : StoreCall -> Prop) (params : JsValue) :
  (forall c spec, P (ItemsQuery dbName c spec)) -> all_calls P (sampleItem params).
Proof. intros H. handler_calls H. Qed.

Lemma putItem_result params : all_returns operation_result (putItem params).
Proof. handler_result. Qed.

Lemma getItem_result params : all_returns operation_result (getItem params).
Proof. handler_result. Qed.

Lemma queryContainer_result params : all_returns operation_result (queryContainer params).
Proof. handler_result. Qed.

Lemma updateItem_result params : all_returns operation_result (updateItem params).
Proof. handler_result. Qed.

Lemma listContainers_result : all_returns operation_result listContainers.
Proof. handler_result. Qed.

Lemma sampleItem_result params : all_returns operation_result (sampleItem params).
Proof. handler_result. Qed.

(** X1. Whatever the arguments and whatever the store answers, each of the
    six handlers returns (it never throws) an object whose first two fields
    are [success], a boolean, and [message], a string. *)
Theorem every_handler_returns_a_result (params : JsValue) (s : state st) :
  Forall (fun handler : Prog JsValue =>
            exists result,
              outcome (run st handler s) = Returned result /\ operation_result result)
         [putItem params; getItem params; queryContainer params;
          updateItem params; listContainers; sampleItem params].
Proof.
  assert (Hgen : forall handler : Prog JsValue,
            never_throws handler -> all_returns operation_result handler ->
            exists result,
              outcome (run st handler s) = Returned result /\ operation_result result).
  { intros handler Hnt Har. destruct (never_throws_returns st handler s Hnt) as [r Hr].
    exists r. split; [exact Hr|]. exact (all_returns_run st _ handler s r Har Hr). }
  repeat apply Forall_cons; [..|apply Forall_nil]; apply Hgen.
  - apply putItem_never_throws.
  - apply putItem_result.
  - apply getItem_never_throws.
  - apply getItem_result.
  - apply queryContainer_never_throws.
  - apply queryContainer_result.
  - apply updateItem_never_throws.
  - apply updateItem_result.
  - apply listContainers_never_throws.
  - apply listContainers_result.
  - apply sampleItem_never_throws.
  - apply sampleItem_result.
Qed.

(** X2. [getItem], [queryContainer], [listContainers] and [sampleItem] never
    call [create] or [replace]: whatever the arguments and the store's
    answers, every call they make is a read, a query or a listing. *)
Theorem lookups_never_write (params : JsValue) (s : state st) :
  Forall (fun handler : Prog JsValue => Forall reads_only (calls (run st handler s)))
         [getItem params; queryContainer params; listContainers; sampleItem params].
Proof.
  repeat constructor; apply all_calls_run.
  - apply getItem_calls. intros; exact I.
  - apply queryContainer_calls. intros; exact I.
  - apply listContainers_calls. exact I.
  - apply sampleItem_calls. intros; exact I.
Qed.

(** X3. Every store call of every handler addresses the one database
    [dbName]; the only calls [updateItem] makes are reads and replaces, the
    only call [putItem] makes is a create. *)
Theorem handlers_stay_in_their_database (params : JsValue) (s : state st) :
  Forall (fun handler : Prog JsValue =>
            Forall (fun c => database_of c = dbName) (calls (run st handler s)))
         [putItem params; getItem params; queryContainer params;
          updateItem params; listContainers; sampleItem params]
  /\ Forall (fun c => (exists cn id, c = ItemRead dbName cn id)
                      \/ (exists cn id body, c = ItemReplace dbName cn id body))
            (calls (run st (updateItem params) s))
  /\ Forall (fun c => exists cn body, c = ItemsCreate dbName cn body)
            (calls (run st (putItem params) s)).
Proof.
  split; [|split].
  - repeat constructor; apply all_calls_run.
    + apply putItem_calls. reflexivity.
    + apply getItem_calls. reflexivity.
    + apply queryContainer_calls. reflexivity.
    + apply updateItem_calls; reflexivity.
    + apply listContainers_calls. reflexivity.
    + apply sampleItem_calls. reflexivity.
  - apply all_calls_run, updateItem_calls; intros; eauto.
  - apply all_calls_run, putItem_calls. intros; eauto.
Qed.

(** X4. A handler makes at most one store call, [updateItem] at most two;
    there is no retry. *)
Theorem handlers_call_the_store_at_most_twice (params : JsValue) (s : state st) :
  Forall (fun handler : Prog JsValue => List.length (calls (run st handler s)) <= 1)
         [putItem params; getItem params; queryContainer params;
          listContainers; sampleItem params]
  /\ List.length (calls (run st (updateItem params) s)) <= 2.
Proof.
  split; [repeat apply Forall_cons; [..|apply Forall_nil]|];
    apply at_most_calls_run; handler_budget.
Qed.

End HandlerFacts.

(* ================================================================== *)
(** ** The paths through the handlers *)
(* ================================================================== *)

Section HandlerPaths.

Context {host : Host} (st : Store).


(** X6. With an arguments object, whatever it holds, a handler forwards what
    it finds to the store unchecked: the one call of [putItem], [getItem],
    [queryContainer] and [sampleItem], and the first call of [updateItem],
    carry the values of the named arguments as they are, [undefined] for a
    missing one. *)
Theorem arguments_are_forwarded_unchecked (params : JsValue) (s : state st) :
  Js.is_nullish params = false ->
  let arg := Js.get params in
  calls (run st (putItem params) s) = [ItemsCreate dbName (arg "containerName") (arg "item")]
  /\ calls (run st (getItem params) s) = [ItemRead dbName (arg "containerName") (arg "id")]
  /\ calls (run st (queryContainer params) s) =
       [ItemsQuery dbName (arg "containerName")
          (JObj [("query", arg "query"); ("parameters", arg "parameters")])]
  /\ calls (run st (sampleItem params) s) =
       [ItemsQuery dbName (arg "containerName")
          (JObj [("query", JStr "SELECT * FROM c ORDER BY c._ts DESC OFFSET 0 LIMIT @limit");
                 ("parameters",
                  JArr [JObj [("name", JStr "@limit");
                              ("value", match arg "limit" with
                                        | JUndefined => JNum 1
                                        | _ => arg "limit"
                                        end)]])])]
  /\ exists rest,
       calls (run st (updateItem params) s) =
       ItemRead dbName (arg "containerName") (arg "id") :: rest.
Proof.
  intros Hp arg.
  assert (Hlast : forall (p : Prog JsValue) (h : JsError -> Prog JsValue) (s' : state st),
            pure p -> (forall e, calls (run st (h e) s') = []) ->
            calls (run st (try_catch p h) s') = []).
  { intros p h s' Hpure Hh. destruct p; simpl in *; try contradiction; [reflexivity | apply Hh]. }
  repeat split.
  - unfold putItem. rewrite !(destructure_object params) by exact Hp. simpl.
    destruct (handle st _ s) as [[response|e] s']; simpl; [|reflexivity].
    f_equal. apply Hlast; [pure_body | reflexivity].
  - unfold getItem. rewrite !(destructure_object params) by exact Hp. simpl.
    destruct (handle st _ s) as [[response|e] s']; simpl; [|reflexivity].
    f_equal. apply Hlast; [pure_body | reflexivity].
  - unfold queryContainer. rewrite !(destructure_object params) by exact Hp. simpl.
    destruct (handle st _ s) as [[response|e] s']; simpl; [|reflexivity].
    f_equal. apply Hlast; [pure_body | reflexivity].
  - unfold sampleItem. rewrite !(destructure_object params) by exact Hp. simpl.
    destruct (handle st _ s) as [[response|e] s']; simpl; [|reflexivity].
    f_equal. apply Hlast; [pure_body | reflexivity].
  - unfold updateItem. rewrite !(destructure_object params) by exact Hp. simpl.
    destruct (handle st _ s) as [r s']. simpl. eexists. reflexivity.
Qed.


(** X8. When the query is fulfilled, [queryContainer] returns [success: true]
    with the store's [resources] as [items], untouched: unlike [sampleItem]
    it truncates nothing. The query text and its parameters reach the store
    as given. *)
Theorem queryContainer_returns_the_feed (s s1 : state st) (params response : JsValue)
  (c : string) :
  names_container params c ->
  let call := ItemsQuery dbName (JStr c)
                (JObj [("query", Js.get params "query");
                       ("parameters", Js.get params "parameters")]) in
  fulfils st call s response s1 ->
  run st (queryContainer params) s =
  mkRun (Returned (success_result ("Query executed successfully on container " ++ c)
                     [("items", Js.get response "resources")]))
        s1 [call] [].
Proof.
  intros [Hp Hc] call [Hq Hr]. unfold queryContainer.
  rewrite !(destructure_object params) by exact Hp. rewrite Hc. simpl.
  fold call. rewrite Hq. simpl.
  rewrite (destructure_object response) by exact Hr. reflexivity.
Qed.

Lemma map_prog_member (definitions : list JsValue) :
  Forall (fun d => Js.is_nullish d = false) definitions ->
  map_prog (fun c => member c "id") definitions =
  Ret (map (fun d => Js.get d "id") definitions).
Proof.
  induction 1 as [|d rest Hd _ IH]; simpl; [reflexivity|].
  assert (Hm : member d "id" = Ret (Js.get d "id"))
    by (destruct d; try reflexivity; discriminate).
  rewrite Hm. simpl. rewrite IH. reflexivity.
Qed.

(** X9. When the listing is fulfilled with container definitions,
    [listContainers] returns [success: true] with their [id]s, in the order
    the store gave them. *)
Theorem listContainers_returns_the_ids (s s1 : state st) (response : JsValue)
  (definitions : list JsValue) :
  fulfils st (ContainersReadAll dbName) s response s1 ->
  Js.get response "resources" = JArr definitions ->
  Forall (fun d => Js.is_nullish d = false) definitions ->
  run st listContainers s =
  mkRun (Returned (success_result "Containers retrieved successfully"
                     [("containers", JArr (map (fun d => Js.get d "id") definitions))]))
        s1 [ContainersReadAll dbName] [].
Proof.
  intros [Hq Hr] Hres Hdefs. unfold listContainers. simpl. rewrite Hq. simpl.
  rewrite (destructure_object response) by exact Hr. rewrite Hres. simpl.
  rewrite (map_prog_member definitions Hdefs). reflexivity.
Qed.


End HandlerPaths.

(* ================================================================== *)
(** ** The dispatcher and the catalogue *)
(* ================================================================== *)

Section DispatcherFacts.

Context {host : Host} (st : Store).

Lemma JSON_stringify_object (o : list (string * JsValue)) :
  exists text, JSON_stringify (JObj o) = JStr text.
Proof. unfold JSON_stringify. simpl. eauto. Qed.

Lemma callTool_of_handler (request : Request) (handler : Prog JsValue) (s : state st) :
  route request = bind handler (fun r => Ret (inr r)) ->
  never_throws handler ->
  exists result,
    outcome (run st handler s) = Returned result
    /\ run st (callTool request) s =
       mkRun (Returned (JObj [("content", text_content (JSON_stringify result))]))
             (final (run st handler s)) (calls (run st handler s))
             (stderr (run st handler s)).
Proof.
  intros Hroute Hnt. destruct (never_throws_returns st handler s Hnt) as [result Hres].
  exists result. split; [exact Hres|].
  unfold callTool, callTool_body. rewrite Hroute.
  rewrite run_try_catch. cbv zeta. repeat (rewrite run_bind; cbv zeta).
  rewrite Hres. simpl. now rewrite !app_nil_r.
Qed.

(** X11. The dispatcher runs, for each of the six names, the handler of that
    name on the request's arguments ([listContainers] ignores them) and adds
    nothing of its own: the store calls, the diagnostics and the final store
    are the handler's, and the response carries the handler's result
    serialized as a string, with no [isError] field. *)
Theorem dispatcher_adds_nothing (request : Request) (handler : Prog JsValue) (s : state st) :
  let args := arguments request in
  In (name request, handler)
     [("put_item", putItem args); ("get_item", getItem args);
      ("query_container", queryContainer args); ("update_item", updateItem args);
      ("list_containers", listContainers); ("sample_item", sampleItem args)] ->
  exists result text,
    outcome (run st handler s) = Returned result
    /\ JSON_stringify result = JStr text
    /\ run st (callTool request) s =
       mkRun (Returned (JObj [("content", JArr [JObj [("type", JStr "text");
                                                      ("text", JStr text)]])]))
             (final (run st handler s)) (calls (run st handler s))
             (stderr (run st handler s)).
Proof.
  intros args Hin.
  assert (Hh : route request = bind handler (fun r => Ret (inr r))
               /\ never_throws handler /\ all_returns operation_result handler).
  { unfold route. fold args. simpl in Hin.
    destruct Hin as [E|[E|[E|[E|[E|[E|[]]]]]]]; injection E as En <-; rewrite <- En;
      (split; [reflexivity|]).
    - split; [apply putItem_never_throws | apply putItem_result].
    - split; [apply getItem_never_throws | apply getItem_result].
    - split; [apply queryContainer_never_throws | apply queryContainer_result].
    - split; [apply updateItem_never_throws | apply updateItem_result].
    - split; [apply listContainers_never_throws | apply listContainers_result].
    - split; [apply sampleItem_never_throws | apply sampleItem_result]. }
  destruct Hh as (Hroute & Hnt & Har).
  destruct (callTool_of_handler request handler s Hroute Hnt) as (result & Hres & Hrun).
  destruct (all_returns_run st _ handler s result Har Hres) as (b & m & payload & ->).
  destruct (JSON_stringify_object (("success", JBool b) :: ("message", JStr m) :: payload))
    as [text Htext].
  exists (JObj (("success", JBool b) :: ("message", JStr m) :: payload)), text.
  split; [exact Hres|]. split; [exact Htext|].
  rewrite Hrun, Htext. reflexivity.
Qed.

Lemma listed_names (n : string) : listed n = true <-> In n toolNames.
Proof.
  assert (E : listed n = existsb (fun m => String.eqb m n) toolNames) by reflexivity.
  rewrite E, existsb_exists. split.
  - intros (m & Hin & Heq). apply String.eqb_eq in Heq. now subst m.
  - intros Hin. exists n. split; [exact Hin | apply String.eqb_refl].
Qed.

(** X12. The catalogue of the list-tools handler and the [switch] of the
    call-tool handler agree: a request is answered with [isError] exactly
    when its name is not the name of a listed tool, and the catalogue lists
    six tools with pairwise different names. *)
Theorem catalogue_matches_dispatcher (request : Request) (s : state st) :
  run st listTools s = mkRun (Returned (JObj [("tools", JArr toolCatalogue)])) s [] []
  /\ distinct (map (fun tool => match Js.get tool "name" with
                                | JStr n => n
                                | _ => ""
                                end) toolCatalogue) = true
  /\ List.length toolCatalogue = 6
  /\ exists response,
       outcome (run st (callTool request) s) = Returned response
       /\ isError response = negb (listed (name request)).
Proof.
  split; [reflexivity|]. split; [reflexivity|]. split; [reflexivity|].
  destruct (in_dec string_dec (name request) toolNames) as [Hin|Hout].
  - assert (Hl : listed (name request) = true) by now apply listed_names.
    destruct (route_known st request s Hin) as (handler & result & _ & _ & Hrun).
    exists (JObj [("content", text_content (JSON_stringify result))]).
    rewrite Hl. split; [|reflexivity].
    unfold callTool, callTool_body.
    rewrite outcome_try_catch, outcome_bind, Hrun. reflexivity.
  - assert (Hl : listed (name request) = false).
    { destruct (listed (name request)) eqn:E; [|reflexivity].
      apply listed_names in E. contradiction. }
    eexists. unfold callTool, callTool_body. rewrite (route_unknown request Hout).
    rewrite Hl. split; reflexivity.
Qed.

End DispatcherFacts.

(* ================================================================== *)
(** ** Words and prefixes *)
(* ================================================================== *)

Section Words.

Local Open Scope string_scope.

Lemma split_not_empty (sep : ascii) (s : string) : JsString.split sep s <> [].
Proof.
  destruct s as [|c s]; simpl; [discriminate|].
  destruct (Ascii.eqb c sep); [discriminate|].
  destruct (JsString.split sep s); discriminate.
Qed.

Lemma join_cons (sep w : string) (ws : list string) :
  ws <> [] -> JsString.join sep (w :: ws) = w ++ sep ++ JsString.join sep ws.
Proof. destruct ws; [intros H; now elim H | reflexivity]. Qed.

Lemma append_assoc (a b c : string) : (a ++ b) ++ c = a ++ b ++ c.
Proof. induction a as [|x a IH]; simpl; [reflexivity | now rewrite IH]. Qed.

Lemma append_empty (a : string) : a ++ "" = a.
Proof. induction a as [|x a IH]; simpl; [reflexivity | now rewrite IH]. Qed.

Lemma join_of_split (sep : ascii) (s : string) :
  JsString.join (String sep "") (JsString.split sep s) = s.
Proof.
  induction s as [|c s IH]; [reflexivity|]. simpl.
  destruct (Ascii.eqb_spec c sep) as [->|_].
  - rewrite join_cons by apply split_not_empty. simpl. now rewrite IH.
  - pose proof (split_not_empty sep s) as Hne.
    destruct (JsString.split sep s) as [|w ws]; [now elim Hne|].
    destruct ws as [|w' ws].
    + simpl in *. now rewrite IH.
    + rewrite join_cons by discriminate. rewrite join_cons in IH by discriminate.
      simpl. f_equal. exact IH.
Qed.

Lemma join_firstn_prefix (sep : string) (n : nat) (l : list string) :
  exists dropped,
    JsString.join sep l = JsString.join sep (JsString.slice0 n l) ++ dropped.
Proof.
  unfold JsString.slice0. revert n. induction l as [|w ws IH]; intros n.
  - exists "". now destruct n.
  - destruct n as [|n]; [exists (JsString.join sep (w :: ws)); reflexivity|].
    cbn [firstn]. destruct ws as [|w' ws].
    + exists "". destruct n; simpl; now rewrite append_empty.
    + rewrite join_cons by discriminate.
      destruct (IH n) as [dropped Hd]. destruct n as [|n].
      * exists (sep ++ JsString.join sep (w' :: ws)). reflexivity.
      * rewrite (join_cons sep w (firstn (S n) (w' :: ws)))
          by (cbn [firstn]; discriminate).
        exists dropped. rewrite Hd. now rewrite !append_assoc.
Qed.

Lemma spaces_append (a b : string) : spaces (a ++ b) = spaces a + spaces b.
Proof. induction a as [|c a IH]; simpl; [reflexivity | rewrite IH; lia]. Qed.

Lemma spaces_of_word (w : string) : JsString.has_space w = false -> spaces w = 0.
Proof.
  induction w as [|c w IH]; simpl; [reflexivity|].
  intros H. apply orb_false_iff in H. destruct H as [Hc Hw].
  rewrite Hc, (IH Hw). reflexivity.
Qed.

Lemma split_words_have_no_space (s : string) :
  Forall (fun w => JsString.has_space w = false) (JsString.split JsString.space s).
Proof.
  induction s as [|c s IH]; simpl; [repeat constructor|].
  destruct (Ascii.eqb c JsString.space) eqn:E; [constructor; [reflexivity | exact IH]|].
  destruct (JsString.split JsString.space s) as [|w ws].
  - repeat constructor. simpl. now rewrite E.
  - inversion IH as [|? ? Hw Hws]; subst. constructor; [|exact Hws].
    simpl. now rewrite E, Hw.
Qed.

Lemma spaces_of_join (l : list string) :
  Forall (fun w => JsString.has_space w = false) l ->
  spaces (JsString.join " " l) = List.length l - 1.
Proof.
  induction 1 as [|w ws Hw Hws IH]; [reflexivity|].
  destruct ws as [|w' ws].
  - simpl. now apply spaces_of_word.
  - rewrite join_cons by discriminate. rewrite !spaces_append, IH.
    rewrite (spaces_of_word w Hw). simpl. lia.
Qed.

Lemma split_counts_spaces (s : string) :
  List.length (JsString.split JsString.space s) = spaces s + 1.
Proof.
  induction s as [|c s IH]; simpl; [reflexivity|].
  destruct (Ascii.eqb c JsString.space); simpl; [now rewrite IH|].
  pose proof (split_not_empty JsString.space s) as Hne.
  destruct (JsString.split JsString.space s); [now elim Hne | exact IH].
Qed.

(** X13. Splitting a string at a character and joining the pieces with that
    character gives the string back ([s.split(c).join(c) = s]); split at the
    space, a string has one piece more than it has spaces, and no piece
    holds a space. *)
Theorem split_then_join (s : string) :
  (forall sep, JsString.join (String sep "") (JsString.split sep s) = s)
  /\ List.length (JsString.split JsString.space s) = spaces s + 1
  /\ Forall (fun w => JsString.has_space w = false) (JsString.split JsString.space s).
Proof.
  split; [|split].
  - intros sep. apply join_of_split.
  - apply split_counts_spaces.
  - apply split_words_have_no_space.
Qed.

Lemma Forall_firstn {A} (P : A -> Prop) (n : nat) (l : list A) :
  Forall P l -> Forall P (firstn n l).
Proof.
  intros H. revert n. induction H as [|x l Hx _ IH]; intros [|n]; simpl;
    constructor; auto.
Qed.

(** X14. A string value is either returned as it is or cut: the result is
    then a prefix of the original that holds at most nine spaces (ten words),
    followed by ["..."]. So the result is never more than three characters
    longer than the original, and whatever it shows before the ellipsis
    stood at the start of the original. *)
Theorem truncation_keeps_a_prefix (s : string) :
  truncateLongValues (JStr s) = JStr s
  \/ exists kept dropped,
       s = kept ++ dropped
       /\ truncateLongValues (JStr s) = JStr (kept ++ "...")
       /\ spaces kept <= 9
       /\ JsString.length (kept ++ "...") <= JsString.length s + 3.
Proof.
  unfold truncateLongValues. destruct (Nat.ltb 100 (JsString.length s)); [right | now left].
  set (words := JsString.split JsString.space s).
  destruct (join_firstn_prefix " " 10 words) as [dropped Hd].
  exists (JsString.join " " (JsString.slice0 10 words)), dropped.
  assert (Hs : s = JsString.join " " (JsString.slice0 10 words) ++ dropped).
  { rewrite <- Hd. symmetry. apply (join_of_split JsString.space). }
  split; [exact Hs|]. split; [reflexivity|]. split.
  - unfold JsString.slice0. rewrite spaces_of_join
      by (apply Forall_firstn, split_words_have_no_space).
    pose proof (firstn_le_length 10 words). lia.
  - unfold JsString.length. rewrite Hs at 1. rewrite !length_append. simpl. lia.
Qed.

Lemma typeof_truncate (v : JsValue) : Js.typeof (truncateLongValues v) = Js.typeof v.
Proof.
  destruct v; try reflexivity. simpl.
  destruct (Nat.ltb 100 (JsString.length s)); reflexivity.
Qed.

(** X15. In every entry of [schema] the [type] is also the [typeof] of the
    [sample] shown, and the [field] is the key it was built for: truncation
    never changes the type of a value. *)
Theorem schema_type_describes_the_sample (first : JsValue) (key : string) :
  let entry := schemaEntry first key in
  Js.get entry "field" = JStr key
  /\ Js.get entry "type" = JStr (Js.typeof (Js.get entry "sample"))
  /\ Js.get entry "sample" = truncateLongValues (Js.get first key)
  /\ Obj.keys (Js.own_props entry) = ["field"; "type"; "sample"].
Proof.
  cbv zeta. unfold schemaEntry.
  change (Js.get (JObj [("field", JStr key);
                        ("type", JStr (Js.typeof (Js.get first key)));
                        ("sample", truncateLongValues (Js.get first key))]) "sample")
    with (truncateLongValues (Js.get first key)).
  rewrite typeof_truncate. repeat split.
Qed.

End Words.

(* ================================================================== *)
(** ** Diagnostics *)
(* ================================================================== *)

Section Diagnostics.

Context {host : Host} (st : Store).










End Diagnostics.

(* ================================================================== *)
(** ** More theorems at concrete inputs *)
(* ================================================================== *)

Section GetItem.

Context {host : Host} (st : Store).

(** X17. When the point read is fulfilled, [getItem] returns [success: true]
    with the store's [resource] as [item], untouched (a long string in it is
    not truncated), after that one call and with nothing logged. *)
Theorem getItem_returns_the_resource (s s1 : state st) (params response : JsValue)
  (c : string) :
  names_container params c ->
  fulfils st (ItemRead dbName (JStr c) (Js.get params "id")) s response s1 ->
  run st (getItem params) s =
  mkRun (Returned (success_result ("Item retrieved successfully from container " ++ c)
                     [("item", Js.get response "resource")]))
        s1 [ItemRead dbName (JStr c) (Js.get params "id")] [].
Proof.
  intros [Hp Hc] [Hq Hr]. unfold getItem.
  rewrite !(destructure_object params) by exact Hp. rewrite Hc. simpl. rewrite Hq. simpl.
  rewrite (destructure_object response) by exact Hr. reflexivity.
Qed.

End GetItem.

Lemma getItem_returns_the_resource_witness :
  run Cosmos.store
      (@getItem example_host (JObj [("containerName", JStr "notes"); ("id", JStr "n1")]))
      notes_db =
  mkRun (Returned (success_result "Item retrieved successfully from container notes"
                     [("item", JObj note1)]))
        notes_db [ItemRead "todos" (JStr "notes") (JStr "n1")] [].
Proof.
  apply (@getItem_returns_the_resource example_host Cosmos.store notes_db notes_db
           (JObj [("containerName", JStr "notes"); ("id", JStr "n1")])
           (JObj [("resource", JObj note1)]) "notes").
  - split; reflexivity.
  - split; reflexivity.
Defined.

Lemma putItem_creates_once_witness :
  run Cosmos.store (@putItem example_host put_fresh_args) example_db =
  mkRun (Returned (success_result "Item added successfully to container c"
                     [("item", JObj [("id", JStr "y"); ("a", JNum 9)])]))
        (Cosmos.with_docs example_db "c"
           [[("id", JStr "y"); ("a", JNum 9)];
            [("id", JStr "x"); ("a", JNum 0); ("b", JNum 2)]])
        [ItemsCreate "todos" (JStr "c") (JObj [("id", JStr "y"); ("a", JNum 9)])] [].
Proof.
  apply (@putItem_creates_once example_host Cosmos.store example_db
           (Cosmos.with_docs example_db "c"
              [[("id", JStr "y"); ("a", JNum 9)];
               [("id", JStr "x"); ("a", JNum 0); ("b", JNum 2)]])
           put_fresh_args
           (JObj [("resource", JObj [("id", JStr "y"); ("a", JNum 9)])]) "c").
  - split; reflexivity.
  - split; reflexivity.
Defined.


Lemma arguments_are_forwarded_unchecked_witness :
  calls (run Cosmos.store (@getItem example_host (JObj [("containerName", JStr "c")]))
           example_db)
  = [ItemRead "todos" (JStr "c") JUndefined]
  /\ calls (run Cosmos.store (@sampleItem example_host (JObj [("limit", JNull)])) example_db)
     = [ItemsQuery "todos" JUndefined (@sampleQuerySpec JNull)].
Proof.
  split.
  - apply (@arguments_are_forwarded_unchecked example_host Cosmos.store
             (JObj [("containerName", JStr "c")]) example_db).
    reflexivity.
  - apply (@arguments_are_forwarded_unchecked example_host Cosmos.store
             (JObj [("limit", JNull)]) example_db).
    reflexivity.
Defined.


Lemma queryContainer_returns_the_feed_witness :
  run Cosmos.store (@queryContainer example_host newest_note_args) notes_db =
  mkRun (Returned (success_result "Query executed successfully on container notes"
                     [("items", JArr [JObj note2])]))
        notes_db
        [ItemsQuery "todos" (JStr "notes")
           (JObj [("query", JStr sampleQuery);
                  ("parameters", JArr [JObj [("name", JStr "@limit"); ("value", JNum 1)]])])]
        [].
Proof.
  apply (@queryContainer_returns_the_feed example_host Cosmos.store notes_db notes_db
           newest_note_args (JObj [("resources", JArr [JObj note2])]) "notes").
  - split; reflexivity.
  - split; reflexivity.
Defined.

Lemma listContainers_returns_the_ids_witness :
  run Cosmos.store (@listContainers example_host) example_db =
  mkRun (Returned (success_result "Containers retrieved successfully"
                     [("containers", JArr [JStr "c"; JStr "empty"])]))
        example_db [ContainersReadAll "todos"] [].
Proof.
  apply (@listContainers_returns_the_ids example_host Cosmos.store example_db example_db
           (JObj [("resources", JArr [JObj [("id", JStr "c")]; JObj [("id", JStr "empty")]])])
           [JObj [("id", JStr "c")]; JObj [("id", JStr "empty")]]).
  - split; reflexivity.
  - reflexivity.
  - repeat constructor.
Defined.


Lemma dispatcher_adds_nothing_witness :
  exists result text,
    outcome (run Cosmos.store (@getItem example_host (get_args "x")) example_db)
      = Returned result
    /\ @JSON_stringify example_host result = JStr text
    /\ run Cosmos.store
           (@callTool example_host {| name := "get_item"; arguments := get_args "x" |})
           example_db =
       mkRun (Returned (JObj [("content", JArr [JObj [("type", JStr "text");
                                                      ("text", JStr text)]])]))
             example_db [ItemRead "todos" (JStr "c") (JStr "x")] [].
Proof.
  apply (@dispatcher_adds_nothing example_host Cosmos.store
           {| name := "get_item"; arguments := get_args "x" |}
           (@getItem example_host (get_args "x")) example_db).
  simpl. tauto.
Defined.
